(** * weibo-crawler: the stock classifier and WeCom notifier

    A shallow embedding of [util/stock_analyzer.py] (class [StockAnalyzer])
    and the properties of its classify-then-notify pipeline.

    Conventions of the embedding.
    - A Python [str] is its sequence of Unicode code points, [list N];
      literals are written as the UTF-8 text of the Python file and decoded
      by [cp].
    - A Python dict used as a record ([weibo_data]) is a [gmap] from keys to
      Python values; the set [pushed_weibo_ids] is a [gset].
    - The network is an oracle of the runtime: the answer to a request may
      depend on every request sent before it.  The requests sent so far are
      part of the state, so that the number and order of calls can be stated.
    - Logging is not modelled: no logging call of the file can raise, and no
      value is computed from one. *)

From Stdlib Require Import ZArith NArith List Ascii String Bool Lia PrimFloat.
From stdpp Require Import gmap strings list.

#[local] Set Warnings "-register-all".

Local Open Scope Z_scope.

(** ** Python strings *)

Abbreviation pystr := (list N).

(** UTF-8 decoding of the bytes of a literal; malformed input is cut off. *)
Fixpoint utf8_decode (bs : list N) : pystr :=
  match bs with
  | [] => []
  | b0 :: r0 =>
      if (b0 <? 128)%N then b0 :: utf8_decode r0
      else if (b0 <? 224)%N then
        match r0 with
        | b1 :: r1 => ((b0 mod 32) * 64 + b1 mod 64)%N :: utf8_decode r1
        | _ => []
        end
      else if (b0 <? 240)%N then
        match r0 with
        | b1 :: b2 :: r2 =>
            ((b0 mod 16) * 4096 + (b1 mod 64) * 64 + b2 mod 64)%N
              :: utf8_decode r2
        | _ => []
        end
      else
        match r0 with
        | b1 :: b2 :: b3 :: r3 =>
            ((b0 mod 8) * 262144 + (b1 mod 64) * 4096
             + (b2 mod 64) * 64 + b3 mod 64)%N :: utf8_decode r3
        | _ => []
        end
  end.

Definition cp (s : string) : pystr :=
  utf8_decode (map N_of_ascii (list_ascii_of_string s)).

(** [str.isspace] on one character: the code points whose bidirectional
    class is WS, B or S, or whose category is Zs. *)
Definition py_isspace (c : N) : bool :=
  ((9 <=? c) && (c <=? 13) || (28 <=? c) && (c <=? 32)
   || (c =? 133) || (c =? 160) || (c =? 5760)
   || (8192 <=? c) && (c <=? 8202)
   || (c =? 8232) || (c =? 8233) || (c =? 8239) || (c =? 8287)
   || (c =? 12288))%N.

Fixpoint lstrip (s : pystr) : pystr :=
  match s with
  | c :: t => if py_isspace c then lstrip t else s
  | [] => []
  end.

Definition rstrip (s : pystr) : pystr := rev (lstrip (rev s)).

(** [s.strip()] *)
Definition strip (s : pystr) : pystr := lstrip (rstrip s).

Fixpoint startswith (s p : pystr) {struct p} : bool :=
  match p, s with
  | [], _ => true
  | a :: p', b :: s' => (a =? b)%N && startswith s' p'
  | _ :: _, [] => false
  end.

(** [needle in hay] on two strings: a scan for the first position at which
    [needle] starts. *)
Fixpoint py_in (needle hay : pystr) : bool :=
  if startswith hay needle then true
  else match hay with
       | [] => false
       | _ :: t => py_in needle t
       end.

(** [s.count(c)] for a one-character [c]. *)
Definition count_char (c : N) (s : pystr) : Z :=
  Z.of_nat (length (filter (fun x => x = c) s)).

(** [s.replace(c, r)] for a one-character [c]. *)
Definition replace_char (c : N) (r s : pystr) : pystr :=
  flat_map (fun x => if (x =? c)%N then r else [x]) s.

(** Decimal digits of a natural number, as [str(n)] prints them. *)
Fixpoint digits_fuel (fuel : nat) (n : N) (acc : pystr) : pystr :=
  match fuel with
  | O => acc
  | S fuel' =>
      let acc' := (48 + n mod 10)%N :: acc in
      if (n <? 10)%N then acc' else digits_fuel fuel' (n / 10)%N acc'
  end.

Definition str_of_N (n : N) : pystr := digits_fuel (S (N.to_nat (N.log2 n))) n [].

Definition str_of_Z (z : Z) : pystr :=
  if z <? 0 then 45%N :: str_of_N (Z.to_N (- z)) else str_of_N (Z.to_N z).

(** ** Python values held by a post *)

(** The values a post holds under its keys: [None], an integer, a string,
    or the dict [{'is_stock_related': b, 'analysis': a}] that
    [analyze_and_push] stores under ['stock_analysis'].  Floats and other
    containers are left out. *)
Inductive pyval :=
| VNone
| VInt (z : Z)
| VStr (s : pystr)
| VAnalysis (is_stock_related : bool) (analysis : pystr).

Global Instance pyval_eq_dec : EqDecision pyval.
Proof. solve_decision. Defined.

Definition pyval_encode (v : pyval) : unit + Z + pystr + bool * pystr :=
  match v with
  | VNone => inl (inl (inl tt))
  | VInt z => inl (inl (inr z))
  | VStr s => inl (inr s)
  | VAnalysis b a => inr (b, a)
  end.

Definition pyval_decode (x : unit + Z + pystr + bool * pystr) : pyval :=
  match x with
  | inl (inl (inl _)) => VNone
  | inl (inl (inr z)) => VInt z
  | inl (inr s) => VStr s
  | inr (b, a) => VAnalysis b a
  end.

Global Instance pyval_countable : Countable pyval.
Proof.
  apply (inj_countable' pyval_encode pyval_decode).
  intros []; reflexivity.
Defined.

(** Truth value of an object: [None], [0] and [''] are false; the analysis
    dict has two keys and is true. *)
Definition truthy (v : pyval) : bool :=
  match v with
  | VNone => false
  | VInt z => negb (z =? 0)
  | VStr s => match s with [] => false | _ => true end
  | VAnalysis _ _ => true
  end.

(** Dicts are unhashable: using one as a set member raises [TypeError]. *)
Definition hashable (v : pyval) : bool :=
  match v with
  | VAnalysis _ _ => false
  | _ => true
  end.

Abbreviation post := (gmap string pyval).

(** [d.get(key, default)] *)
Definition dict_get (d : post) (key : string) (default : pyval) : pyval :=
  match d !! key with
  | Some v => v
  | None => default
  end.

(** ** Objects returned by [response.json()] *)

Inductive json :=
| JNull
| JBool (b : bool)
| JInt (z : Z)
| JFloat (f : float)
| JStr (s : pystr)
| JList (l : list json)
| JDict (d : list (pystr * json)).

(** A dict is listed as its items; the first item of a key is its value. *)
Fixpoint items_get (d : list (pystr * json)) (key : pystr) : option json :=
  match d with
  | [] => None
  | (k, v) :: d' => if decide (k = key) then Some v else items_get d' key
  end.

(** [x == 0] on such an object: numbers compare by value, and [False] is
    the number 0. *)
Definition eq_zero (x : json) : bool :=
  match x with
  | JInt z => z =? 0
  | JFloat f => PrimFloat.eqb f 0%float
  | JBool b => negb b
  | _ => false
  end.

(** ** The runtime: network, interpreter and clock *)

Record http_request := {
  url : pystr;
  headers : list (pystr * pystr);
  body : json;
  timeout : Z
}.

(** What [requests.post] followed by the reading of the response gives:
    an exception of the transport, or a status with the value of
    [response.json()], [None] when that call raises. *)
Inductive http_outcome :=
| Fault
| Response (status_code : Z) (json_body : option json).

Record runtime := {
  (** the answer to a request, given the requests sent before it *)
  respond : list http_request -> http_request -> http_outcome;
  (** [repr] on a string *)
  repr_str : pystr -> pystr;
  (** offset from UTC, in seconds, of the system's time zone at a wall-clock
      time given in seconds since 0001-01-01 00:00:00 *)
  local_utcoffset : Z -> Z
}.

(** [str(v)], as an f-string renders a field. *)
Definition py_str (rt : runtime) (v : pyval) : pystr :=
  match v with
  | VNone => cp "None"
  | VInt z => str_of_Z z
  | VStr s => s
  | VAnalysis b a =>
      cp "{'is_stock_related': " ++ cp (if b then "True" else "False")
        ++ cp ", 'analysis': " ++ repr_str rt a ++ cp "}"
  end.

(** ** The analyzer *)

(** The attributes set by [__init__] and never assigned again. *)
Record config := {
  enabled : bool;
  api_key : option pystr;
  webhook_url : option pystr;
  model : pystr;
  max_retries : Z
}.

(** The mutable part: the set of pushed ids, and the requests sent so far
    (oldest first). *)
Record state := {
  pushed_weibo_ids : gset pyval;
  sent : list http_request
}.

(** [not x] for an optional string attribute. *)
Definition configured (o : option pystr) : bool :=
  match o with
  | Some (_ :: _) => true
  | _ => false
  end.

(** The ['stock_config'] section, each key present or absent. *)
Record stock_config := {
  cfg_enabled : option bool;
  cfg_zhipu_api_key : option pystr;
  cfg_webhook_url : option pystr;
  cfg_model : option pystr;
  cfg_max_retries : option Z
}.

Definition empty_stock_config : stock_config :=
  {| cfg_enabled := None; cfg_zhipu_api_key := None; cfg_webhook_url := None;
     cfg_model := None; cfg_max_retries := None |}.

(** [__init__]: the attributes, with their defaults. *)
Definition init_config (section : option stock_config) : config :=
  let sc := default empty_stock_config section in
  {| enabled := default false (cfg_enabled sc);
     api_key := cfg_zhipu_api_key sc;
     webhook_url := cfg_webhook_url sc;
     model := default (cp "glm-4-flash") (cfg_model sc);
     max_retries := default 3 (cfg_max_retries sc) |}.

(** [__init__]: the set of pushed ids starts empty. *)
Definition init_state (already_sent : list http_request) : state :=
  {| pushed_weibo_ids := ∅; sent := already_sent |}.

(** *** A state monad for the calls *)

Definition M (A : Type) : Type := state -> A * state.

Definition ret {A} (a : A) : M A := fun st => (a, st).

Definition bind {A B} (m : M A) (k : A -> M B) : M B :=
  fun st => let (a, st') := m st in k a st'.

Notation "x <- m ;; k" := (bind m (fun x => k))
  (at level 100, m at next level, right associativity).

(** [requests.post(url, headers=..., json=..., timeout=...)] *)
Definition requests_post (rt : runtime) (req : http_request) : M http_outcome :=
  fun st =>
    (respond rt (sent st) req,
     {| pushed_weibo_ids := pushed_weibo_ids st; sent := sent st ++ [req] |}).

(** [self.pushed_weibo_ids.add(weibo_id)] *)
Definition pushed_add (weibo_id : pyval) : M unit :=
  fun st =>
    (tt, {| pushed_weibo_ids := {[weibo_id]} ∪ pushed_weibo_ids st;
            sent := sent st |}).

(** *** [is_stock_related] *)

Definition llm_url : pystr :=
  Eval vm_compute in cp "https://open.bigmodel.cn/api/paas/v4/chat/completions".

Definition system_prompt : pystr :=
  Eval vm_compute in cp "你是一个专业的股票内容识别助手。".

Definition prompt_head : pystr :=
  Eval vm_compute in
    cp "请判断以下微博内容是否与股票、证券、投资相关。
如果相关，请简要说明涉及的股票信息（如股票代码、公司名称、投资观点等）；
如果不相关，只回复" ++ [34%N] ++ cp "不相关" ++ [34%N] ++ cp "。

微博内容：
".

Definition prompt_tail : pystr :=
  Eval vm_compute in cp "

请直接回答，不要有多余的解释。".

(** The marker of an unrelated post, [不相关]. *)
Definition not_related_marker : pystr := Eval vm_compute in cp "不相关".

Definition llm_request (rt : runtime) (cfg : config) (text : pyval) : http_request :=
  {| url := llm_url;
     headers :=
       [(cp "Authorization", cp "Bearer " ++ default [] (api_key cfg));
        (cp "Content-Type", cp "application/json")];
     body :=
       JDict
         [(cp "model", JStr (model cfg));
          (cp "messages",
           JList
             [JDict [(cp "role", JStr (cp "system"));
                     (cp "content", JStr system_prompt)];
              JDict [(cp "role", JStr (cp "user"));
                     (cp "content",
                      JStr (prompt_head ++ py_str rt text ++ prompt_tail))]]);
          (cp "temperature", JFloat 0x1.3333333333333p-2%float);
          (cp "max_tokens", JInt 500)];
     timeout := 30 |}.

(** [result['choices'][0]['message']['content']] when every subscript
    succeeds and the value is a string (so that [.strip()] is defined);
    [None] stands for the exception raised otherwise. *)
Definition reply_content (result : json) : option pystr :=
  match result with
  | JDict d =>
      match items_get d (cp "choices") with
      | Some (JList (JDict c0 :: _)) =>
          match items_get c0 (cp "message") with
          | Some (JDict m) =>
              match items_get m (cp "content") with
              | Some (JStr s) => Some s
              | _ => None
              end
          | _ => None
          end
      | _ => None
      end
  | _ => None
  end.

(** [range(n)] *)
Definition py_range (n : Z) : list Z := map Z.of_nat (seq 0 (Z.to_nat n)).

(** The body of the retry loop, over the attempts still to make. *)
Fixpoint attempts_loop (rt : runtime) (cfg : config) (req : http_request)
    (attempts : list Z) : M (bool * pystr) :=
  match attempts with
  | [] => ret (false, [])
  | attempt :: rest =>
      let failed : M (bool * pystr) :=
        if attempt <? max_retries cfg - 1
        then attempts_loop rt cfg req rest
        else ret (false, []) in
      response <- requests_post rt req ;;
      match response with
      | Response status reply =>
          if status =? 200 then
            match reply ≫= reply_content with
            | Some content =>
                let analysis := strip content in
                let is_related := negb (py_in not_related_marker analysis) in
                ret (is_related, analysis)
            | None => failed
            end
          else failed
      | Fault => failed
      end
  end.

Definition is_stock_related (rt : runtime) (cfg : config) (text : pyval)
    : M (bool * pystr) :=
  if negb (enabled cfg) || negb (configured (api_key cfg))
  then ret (false, [])
  else attempts_loop rt cfg (llm_request rt cfg text) (py_range (max_retries cfg)).

(** ** The date functions the notifier calls

    A model of [datetime.fromisoformat], [datetime.strptime] (for the two
    formats of the notifier), [pytz]'s [localize] and [astimezone] for
    [Asia/Shanghai], and [strftime('%Y-%m-%d %H:%M:%S')].
    - [fromisoformat] follows the grammar documented for CPython 3.7 to 3.10,
      [YYYY-MM-DD[*HH[:MM[:SS[.fff[fff]]]][+HH:MM[:SS[.ffffff]]]]]; later
      versions read these texts the same way and accept more shapes, all of
      which start with the digits of the year.
    - [strptime] follows the regular expressions of CPython's [_strptime]
      with their order of alternatives, in the C locale; [\d] is read as an
      ASCII digit and names are compared after ASCII lower-casing.
    - [Asia/Shanghai] is taken at UTC+8, its only offset since 1991-09-15. *)
Module PyDatetime.

Record datetime := {
  year : Z; month : Z; day : Z;
  hour : Z; minute : Z; second : Z; microsecond : Z;
  (** [tzinfo.utcoffset] in microseconds; [None] for a naive value *)
  utcoffset : option Z
}.

Definition is_leap (y : Z) : bool :=
  (y mod 4 =? 0) && (negb (y mod 100 =? 0) || (y mod 400 =? 0)).

Definition days_in_month (y m : Z) : Z :=
  if m =? 2 then (if is_leap y then 29 else 28)
  else if (m =? 4) || (m =? 6) || (m =? 9) || (m =? 11) then 30
  else 31.

Definition days_before_month_tbl : list Z :=
  [0; 31; 59; 90; 120; 151; 181; 212; 243; 273; 304; 334].

Definition days_before_month (y m : Z) : Z :=
  nth (Z.to_nat (m - 1)) days_before_month_tbl 0
  + (if (2 <? m) && is_leap y then 1 else 0).

Definition days_before_year (y : Z) : Z :=
  let p := y - 1 in p * 365 + p / 4 - p / 100 + p / 400.

(** [toordinal]: 0001-01-01 is day 1. *)
Definition ymd2ord (y m d : Z) : Z :=
  days_before_year y + days_before_month y m + d.

(** [_ord2ymd] *)
Definition ord2ymd (ordinal : Z) : Z * Z * Z :=
  let n := ordinal - 1 in
  let n400 := n / 146097 in let n := n mod 146097 in
  let n100 := n / 36524 in let n := n mod 36524 in
  let n4 := n / 1461 in let n := n mod 1461 in
  let n1 := n / 365 in let n := n mod 365 in
  let y := n400 * 400 + 1 + n100 * 100 + n4 * 4 + n1 in
  if (n1 =? 4) || (n100 =? 4) then (y - 1, 12, 31)
  else
    let leapyear := (n1 =? 3) && (negb (n4 =? 24) || (n100 =? 3)) in
    let m := Z.shiftr (n + 50) 5 in
    let preceding :=
      nth (Z.to_nat (m - 1)) days_before_month_tbl 0
      + (if (2 <? m) && leapyear then 1 else 0) in
    if n <? preceding then
      let m' := m - 1 in
      let dim := if m' =? 2 then (if leapyear then 29 else 28)
                 else if (m' =? 4) || (m' =? 6) || (m' =? 9) || (m' =? 11)
                      then 30 else 31 in
      (y, m', n - (preceding - dim) + 1)
    else (y, m, n - preceding + 1).

Definition us_per_second : Z := 1000000.
Definition us_per_day : Z := 86400 * us_per_second.

(** The constructor's checks of its arguments; [None] is [ValueError].  An
    offset must lie strictly between minus and plus 24 hours. *)
Definition make (y m d hh mm ss us : Z) (off : option Z) : option datetime :=
  if (1 <=? y) && (y <=? 9999) && (1 <=? m) && (m <=? 12)
     && (1 <=? d) && (d <=? days_in_month y m)
     && (0 <=? hh) && (hh <=? 23) && (0 <=? mm) && (mm <=? 59)
     && (0 <=? ss) && (ss <=? 59) && (0 <=? us) && (us <=? 999999)
     && match off with
        | Some o => (- us_per_day <? o) && (o <? us_per_day)
        | None => true
        end
  then Some {| year := y; month := m; day := d; hour := hh; minute := mm;
               second := ss; microsecond := us; utcoffset := off |}
  else None.

(** Microseconds of the wall-clock reading since 0001-01-01 00:00:00. *)
Definition wall_us (dt : datetime) : Z :=
  (((ymd2ord (year dt) (month dt) (day dt) - 1) * 24 + hour dt) * 60
   + minute dt) * 60 * us_per_second
  + second dt * us_per_second + microsecond dt.

(** The value with wall-clock reading [t] and offset [off]; [None] is the
    [OverflowError] of a year outside 1..9999. *)
Definition of_wall_us (t : Z) (off : option Z) : option datetime :=
  let days := t / us_per_day in
  let r := t mod us_per_day in
  let '(y, m, d) := ord2ymd (days + 1) in
  if (0 <=? days) && (days <? ymd2ord 9999 12 31) then
    Some {| year := y; month := m; day := d;
            hour := r / (3600 * us_per_second);
            minute := (r / (60 * us_per_second)) mod 60;
            second := (r / us_per_second) mod 60;
            microsecond := r mod us_per_second;
            utcoffset := off |}
  else None.

Definition shanghai_offset_us : Z := 8 * 3600 * us_per_second.

(** [beijing_tz.localize(dt)] on a naive value. *)
Definition localize (dt : datetime) : option datetime :=
  match of_wall_us (wall_us dt - shanghai_offset_us) None with
  | Some _ =>
      Some {| year := year dt; month := month dt; day := day dt;
              hour := hour dt; minute := minute dt; second := second dt;
              microsecond := microsecond dt;
              utcoffset := Some shanghai_offset_us |}
  | None => None
  end.

(** [dt.astimezone(beijing_tz)]: to UTC by the value's own offset (the
    system's for a naive value), then to Shanghai time. *)
Definition astimezone_shanghai (rt : runtime) (dt : datetime) : option datetime :=
  let myoffset :=
    match utcoffset dt with
    | Some o => o
    | None => local_utcoffset rt (wall_us dt / us_per_second) * us_per_second
    end in
  match of_wall_us (wall_us dt - myoffset) None with
  | Some utc => of_wall_us (wall_us utc + shanghai_offset_us) (Some shanghai_offset_us)
  | None => None
  end.

Definition pad2 (z : Z) : pystr :=
  if z <? 10 then 48%N :: str_of_Z z else str_of_Z z.

(** [strftime('%Y-%m-%d %H:%M:%S')]; the year is printed as the C library
    of Linux prints it, without padding. *)
Definition strftime (dt : datetime) : pystr :=
  str_of_Z (year dt) ++ cp "-" ++ pad2 (month dt) ++ cp "-" ++ pad2 (day dt)
    ++ cp " " ++ pad2 (hour dt) ++ cp ":" ++ pad2 (minute dt) ++ cp ":"
    ++ pad2 (second dt).

(** *** Parsers: a list of successes, best first *)

Definition parser (A : Type) : Type := pystr -> list (A * pystr).

Definition pret {A} (a : A) : parser A := fun s => [(a, s)].

Definition pbind {A B} (p : parser A) (k : A -> parser B) : parser B :=
  fun s => flat_map (fun '(a, r) => k a r) (p s).

Definition palt {A} (ps : list (parser A)) : parser A :=
  fun s => flat_map (fun p => p s) ps.

Notation "x <~ p ;; k" := (pbind p (fun x => k))
  (at level 100, p at next level, right associativity).

Definition is_digit (c : N) : bool := ((48 <=? c) && (c <=? 57))%N.

Definition digit_if (ok : Z -> bool) : parser Z :=
  fun s =>
    match s with
    | c :: r =>
        if is_digit c && ok (Z.of_N c - 48) then [(Z.of_N c - 48, r)] else []
    | [] => []
    end.

Definition any_digit : parser Z := digit_if (fun _ => true).
Definition between (lo hi : Z) (z : Z) : bool := (lo <=? z) && (z <=? hi).

Definition two_digits (ok1 ok2 : Z -> bool) : parser Z :=
  a <~ digit_if ok1 ;; b <~ digit_if ok2 ;; pret (10 * a + b).

Definition char (c : N) : parser unit :=
  fun s => match s with
           | x :: r => if (x =? c)%N then [(tt, r)] else []
           | [] => []
           end.

(** [p?], greedy *)
Definition optional {A} (p : parser A) : parser (option A) :=
  palt [a <~ p ;; pret (Some a); pret None].

(** [\s+]: every non-empty run of leading spaces, longest first *)
Fixpoint spaces1 (s : pystr) : list (unit * pystr) :=
  match s with
  | c :: r => if py_isspace c then spaces1 r ++ [(tt, r)] else []
  | [] => []
  end.

Definition lower (c : N) : N :=
  if ((65 <=? c) && (c <=? 90))%N then (c + 32)%N else c.

(** One of the names, whatever the case; the value is its position. *)
Definition name_of (names : list string) : parser Z :=
  fun s =>
    flat_map
      (fun '(i, nm) =>
         let w := cp nm in
         if decide (map lower (take (length w) s) = w)
         then [(Z.of_nat i, drop (length w) s)] else [])
      (imap (fun i nm => (i, nm)) names).

Definition weekday_names : list string :=
  ["mon"; "tue"; "wed"; "thu"; "fri"; "sat"; "sun"]%string.

Definition month_names : list string :=
  ["jan"; "feb"; "mar"; "apr"; "may"; "jun";
   "jul"; "aug"; "sep"; "oct"; "nov"; "dec"]%string.

(** The directives, as [_strptime] writes them. *)
Definition dir_a : parser Z := name_of weekday_names.
Definition dir_b : parser Z := m <~ name_of month_names ;; pret (m + 1).
Definition dir_d : parser Z :=
  palt [two_digits (between 3 3) (between 0 1);
        two_digits (between 1 2) (fun _ => true);
        two_digits (between 0 0) (between 1 9);
        digit_if (between 1 9);
        (_ <~ char 32 ;; digit_if (between 1 9))].
Definition dir_m : parser Z :=
  palt [two_digits (between 1 1) (between 0 2);
        two_digits (between 0 0) (between 1 9);
        digit_if (between 1 9)].
Definition dir_H : parser Z :=
  palt [two_digits (between 2 2) (between 0 3);
        two_digits (between 0 1) (fun _ => true);
        any_digit].
Definition dir_M : parser Z :=
  palt [two_digits (between 0 5) (fun _ => true); any_digit].
Definition dir_S : parser Z :=
  palt [two_digits (between 6 6) (between 0 1);
        two_digits (between 0 5) (fun _ => true);
        any_digit].
Definition dir_Y : parser Z :=
  a <~ any_digit ;; b <~ any_digit ;; c <~ any_digit ;; d <~ any_digit ;;
  pret (1000 * a + 100 * b + 10 * c + d).

(** Between one and [n] digits, longest first; the value is the digits
    padded with zeros on the right to six. *)
Fixpoint fraction (n : nat) (scale : Z) : parser Z :=
  match n with
  | O => fun _ => []
  | S n' =>
      a <~ any_digit ;;
      palt [(f <~ fraction n' (scale / 10) ;; pret (a * scale + f));
            pret (a * scale)]
  end.

(** What [%z] matched: [None] for [Z]; otherwise the sign, the hours, the
    minutes and the seconds group, each of the last two with the colon
    found before it or not. *)
Definition dir_z : parser (option (Z * Z * bool * Z * option (bool * Z * Z))) :=
  palt
    [(sign <~ palt [(_ <~ char 43 ;; pret 1); (_ <~ char 45 ;; pret (-1))] ;;
      hh <~ two_digits (fun _ => true) (fun _ => true) ;;
      colon1 <~ optional (char 58) ;;
      mm <~ two_digits (between 0 5) (fun _ => true) ;;
      sec <~ optional
               (colon2 <~ optional (char 58) ;;
                ss <~ two_digits (between 0 5) (fun _ => true) ;;
                fr <~ optional (_ <~ char 46 ;; fraction 6 100000) ;;
                pret (bool_decide (colon2 = Some tt), ss, default 0 fr)) ;;
      pret (Some (sign, hh, bool_decide (colon1 = Some tt), mm, sec)));
     (_ <~ char 90 ;; pret None)].

(** The offset in microseconds that [_strptime] computes from the match.
    After a colon between hours and minutes, seconds written without a
    colon are refused; without one, a colon before the seconds is read as
    part of the number and [int] fails.  Both are a [ValueError]. *)
Definition offset_of_z (z : option (Z * Z * bool * Z * option (bool * Z * Z)))
    : option Z :=
  match z with
  | None => Some 0
  | Some (sign, hh, _, mm, None) =>
      Some (sign * ((hh * 3600 + mm * 60) * us_per_second))
  | Some (sign, hh, colon1, mm, Some (colon2, ss, fr)) =>
      if eqb colon1 colon2
      then Some (sign * ((hh * 3600 + mm * 60 + ss) * us_per_second + fr))
      else None
  end.

(** The first match of the pattern, which must reach the end of the text. *)
Definition first_full {A} (p : parser A) (s : pystr) : option A :=
  match p s with
  | (a, []) :: _ => Some a
  | _ => None
  end.

(** [datetime.strptime(s, '%a %b %d %H:%M:%S %z %Y')] *)
Definition strptime_weibo (s : pystr) : option datetime :=
  first_full
    (_ <~ dir_a ;; _ <~ spaces1 ;; m <~ dir_b ;; _ <~ spaces1 ;;
     d <~ dir_d ;; _ <~ spaces1 ;; hh <~ dir_H ;; _ <~ char 58 ;;
     mm <~ dir_M ;; _ <~ char 58 ;; ss <~ dir_S ;; _ <~ spaces1 ;;
     z <~ dir_z ;; _ <~ spaces1 ;; y <~ dir_Y ;;
     pret (y, m, d, hh, mm, ss, z)) s
  ≫= fun '(y, m, d, hh, mm, ss, z) =>
       off ← offset_of_z z; make y m d hh mm ss 0 (Some off).

(** [datetime.strptime(s, '%Y-%m-%d %H:%M:%S')] *)
Definition strptime_standard (s : pystr) : option datetime :=
  first_full
    (y <~ dir_Y ;; _ <~ char 45 ;; m <~ dir_m ;; _ <~ char 45 ;;
     d <~ dir_d ;; _ <~ spaces1 ;; hh <~ dir_H ;; _ <~ char 58 ;;
     mm <~ dir_M ;; _ <~ char 58 ;; ss <~ dir_S ;;
     pret (y, m, d, hh, mm, ss)) s
  ≫= fun '(y, m, d, hh, mm, ss) => make y m d hh mm ss 0 None.

(** *** [fromisoformat] *)

Definition exactly {A} (p : parser A) (s : pystr) : option A :=
  match p s with
  | [(a, [])] => Some a
  | _ => None
  end.

Definition dd : parser Z := two_digits (fun _ => true) (fun _ => true).

(** [HH[:MM[:SS[.fff[fff]]]]] with the fields left out read as 0 *)
Definition iso_clock (s : pystr) : option (Z * Z * Z * Z) :=
  match length s with
  | 2%nat => exactly (hh <~ dd ;; pret (hh, 0, 0, 0)) s
  | 5%nat => exactly (hh <~ dd ;; _ <~ char 58 ;; mm <~ dd ;; pret (hh, mm, 0, 0)) s
  | 8%nat =>
      exactly (hh <~ dd ;; _ <~ char 58 ;; mm <~ dd ;; _ <~ char 58 ;;
               ss <~ dd ;; pret (hh, mm, ss, 0)) s
  | 12%nat =>
      exactly (hh <~ dd ;; _ <~ char 58 ;; mm <~ dd ;; _ <~ char 58 ;;
               ss <~ dd ;; _ <~ char 46 ;;
               a <~ any_digit ;; b <~ any_digit ;; c <~ any_digit ;;
               pret (hh, mm, ss, (100 * a + 10 * b + c) * 1000)) s
  | 15%nat =>
      exactly (hh <~ dd ;; _ <~ char 58 ;; mm <~ dd ;; _ <~ char 58 ;;
               ss <~ dd ;; _ <~ char 46 ;;
               a <~ any_digit ;; b <~ any_digit ;; c <~ any_digit ;;
               d <~ any_digit ;; e <~ any_digit ;; f <~ any_digit ;;
               pret (hh, mm, ss,
                     100000 * a + 10000 * b + 1000 * c + 100 * d + 10 * e + f)) s
  | _ => None
  end.

(** The text before the first sign, and the text from the sign on. *)
Fixpoint split_at_sign (s : pystr) : pystr * pystr :=
  match s with
  | [] => ([], [])
  | c :: r =>
      if ((c =? 43) || (c =? 45))%N then ([], s)
      else let (a, b) := split_at_sign r in (c :: a, b)
  end.

Definition fromisoformat (s : pystr) : option datetime :=
  '(y, m, d) ← first_full
      (a <~ dir_Y ;; _ <~ char 45 ;; b <~ dd ;; _ <~ char 45 ;; c <~ dd ;;
       pret (a, b, c)) (take 10 s);
  let tstr := drop 11 s in
  match drop 10 s with
  | [] => make y m d 0 0 0 0 None
  | [_] => None
  | _ :: _ =>
      let (clock, tz) := split_at_sign tstr in
      '(hh, mm, ss, us) ← iso_clock clock;
      match tz with
      | [] => make y m d hh mm ss us None
      | sign :: off =>
          match length off with
          | 5%nat | 8%nat | 15%nat =>
              '(oh, om, os, ous) ← iso_clock off;
              let total := (oh * 3600 + om * 60 + os) * us_per_second + ous in
              make y m d hh mm ss us
                (Some (if (sign =? 45)%N then - total else total))
          | _ => None
          end
      end
  end.

End PyDatetime.

(** *** [push_to_weixin] *)

Definition newline : pystr := [10%N].

Definition posted_at_label : pystr := Eval vm_compute in cp "发博时间: ".
Definition link_label : pystr := Eval vm_compute in cp "链接: ".

(** The value of [beijing_time_str] after the time conversion.  A value
    that is not a string makes ['T' in created_at] or [created_at.count]
    raise, and the handler keeps the value itself. *)
Definition beijing_time_str (rt : runtime) (created_at : pyval) : pyval :=
  if truthy created_at then
    match created_at with
    | VStr s =>
        let dt :=
          if py_in (cp "T") s then
            PyDatetime.fromisoformat (replace_char 90 (cp "+00:00") s)
          else if py_in (cp "+") s || (4 <=? count_char 32 s) then
            PyDatetime.strptime_weibo s
          else
            PyDatetime.strptime_standard s ≫= PyDatetime.localize in
        match dt ≫= PyDatetime.astimezone_shanghai rt with
        | Some beijing_time => VStr (PyDatetime.strftime beijing_time)
        | None => created_at
        end
    | _ => created_at
    end
  else VStr [].

Definition weibo_url (rt : runtime) (user_id weibo_id : pyval) : pystr :=
  if truthy user_id && truthy weibo_id
  then cp "https://weibo.com/" ++ py_str rt user_id ++ cp "/" ++ py_str rt weibo_id
  else [].

Definition message_parts (rt : runtime) (weibo_data : post) : list pystr :=
  let text := dict_get weibo_data "text" (VStr []) in
  let created_at := dict_get weibo_data "created_at" (VStr []) in
  let weibo_id := dict_get weibo_data "id" (VStr []) in
  let user_id := dict_get weibo_data "user_id" (VStr []) in
  let time := beijing_time_str rt created_at in
  let link := weibo_url rt user_id weibo_id in
  (if truthy time then [posted_at_label ++ py_str rt time] else [])
    ++ [newline ++ py_str rt text]
    ++ (if truthy (VStr link) then [newline ++ newline ++ link_label ++ link] else []).

Definition message (rt : runtime) (weibo_data : post) : pystr :=
  concat (message_parts rt weibo_data).

Definition webhook_request (hook : pystr) (msg : pystr) : http_request :=
  {| url := hook;
     headers := [(cp "Content-Type", cp "application/json")];
     body := JDict [(cp "msgtype", JStr (cp "text"));
                    (cp "text", JDict [(cp "content", JStr msg)])];
     timeout := 10 |}.

(** [result.get('errcode') == 0]; [None] when [result] has no [get]. *)
Definition errcode_is_zero (result : json) : option bool :=
  match result with
  | JDict d => Some (match items_get d (cp "errcode") with
                     | Some code => eq_zero code
                     | None => false
                     end)
  | _ => None
  end.

Definition push_to_weixin (rt : runtime) (cfg : config) (content : pystr)
    (weibo_data : post) : M bool :=
  if negb (configured (webhook_url cfg)) then ret false
  else
    response <- requests_post rt
                  (webhook_request (default [] (webhook_url cfg))
                     (message rt weibo_data)) ;;
    match response with
    | Response status result =>
        if status =? 200 then
          match result ≫= errcode_is_zero with
          | Some acknowledged => ret acknowledged
          | None => ret false
          end
        else ret false
    | Fault => ret false
    end.

(** *** [analyze_and_push] *)

Definition already_pushed_note : pystr :=
  Eval vm_compute in cp "(已推送，跳过重复分析)".

(** How a call ends: it returns [weibo_data], or the membership test on an
    unhashable id raises [TypeError]. *)
Inductive ending := Returned | Raised_TypeError.

Definition get_pushed : M (gset pyval) := fun st => (pushed_weibo_ids st, st).

(** The result is the ending and [weibo_data] as the call leaves it: the
    dict is changed in place, and it is that same dict which is returned. *)
Definition analyze_and_push (rt : runtime) (cfg : config) (weibo_data : post)
    : M (ending * post) :=
  if negb (enabled cfg) then ret (Returned, weibo_data)
  else
    let text := dict_get weibo_data "text" (VStr []) in
    if negb (truthy text) then ret (Returned, weibo_data)
    else
      let weibo_id := dict_get weibo_data "id" VNone in
      if truthy weibo_id && negb (hashable weibo_id)
      then ret (Raised_TypeError, weibo_data)
      else
        pushed <- get_pushed ;;
        if truthy weibo_id && bool_decide (weibo_id ∈ pushed) then
          match weibo_data !! "stock_analysis" with
          | None =>
              ret (Returned,
                   <["stock_analysis" := VAnalysis true already_pushed_note]>
                     weibo_data)
          | Some _ => ret (Returned, weibo_data)
          end
        else
          r <- is_stock_related rt cfg text ;;
          let (is_related, analysis) := r in
          let weibo_data :=
            <["stock_analysis" := VAnalysis is_related analysis]> weibo_data in
          if is_related && truthy weibo_id then
            success <- push_to_weixin rt cfg analysis weibo_data ;;
            if success
            then _ <- pushed_add weibo_id ;; ret (Returned, weibo_data)
            else ret (Returned, weibo_data)
          else ret (Returned, weibo_data).

(** ** The message as the specification words it

    The segments that are present, in order, with a blank line between the
    time segment and the text and between the text and the link. *)
Definition blank_line : pystr := newline ++ newline.

Definition spec_message (rt : runtime) (weibo_data : post) : pystr :=
  let text := dict_get weibo_data "text" (VStr []) in
  let time := beijing_time_str rt (dict_get weibo_data "created_at" (VStr [])) in
  let link := weibo_url rt (dict_get weibo_data "user_id" (VStr []))
                (dict_get weibo_data "id" (VStr [])) in
  (if truthy time then posted_at_label ++ py_str rt time ++ blank_line else [])
    ++ py_str rt text
    ++ (if truthy (VStr link) then blank_line ++ link_label ++ link else []).

(** ** Vocabulary of the properties *)

(** The state after some more requests. *)
Definition sent_more (st : state) (reqs : list http_request) : state :=
  {| pushed_weibo_ids := pushed_weibo_ids st; sent := sent st ++ reqs |}.

(** An attempt at classification fails: a fault of the transport, a status
    other than 200, or a body from which the reply cannot be read. *)
Definition attempt_fails (o : http_outcome) : Prop :=
  match o with
  | Fault => True
  | Response status reply => status ≠ 200 ∨ reply ≫= reply_content = None
  end.

(** [needle] occurs in [hay]. *)
Definition substring (needle hay : pystr) : Prop :=
  ∃ before after, hay = before ++ needle ++ after.

(** The webhook acknowledged: status 200 and a body that is a dict whose
    [errcode] equals 0. *)
Definition acknowledged (o : http_outcome) : Prop :=
  ∃ d code, o = Response 200 (Some (JDict d))
            ∧ items_get d (cp "errcode") = Some code ∧ eq_zero code = true.

(** What the notifier makes of the answer of the webhook. *)
Definition acknowledged_b (o : http_outcome) : bool :=
  match o with
  | Response status result =>
      if status =? 200 then default false (result ≫= errcode_is_zero) else false
  | Fault => false
  end.

(** The state after [weibo_id] is recorded as pushed. *)
Definition add_pushed (weibo_id : pyval) (st : state) : state :=
  {| pushed_weibo_ids := {[weibo_id]} ∪ pushed_weibo_ids st; sent := sent st |}.

(** A webhook delivery for the post was acknowledged between [st] and
    [st']: a request carrying the message of the post to the configured
    address is among the requests sent since [st], and its answer is an
    acknowledgment. *)
Definition delivered (rt : runtime) (cfg : config) (weibo_data : post)
    (st st' : state) : Prop :=
  ∃ hook hist rest,
    webhook_url cfg = Some hook
    ∧ sent st' = hist ++ webhook_request hook (message rt weibo_data) :: rest
    ∧ (length (sent st) ≤ length hist)%nat
    ∧ acknowledged (respond rt hist (webhook_request hook (message rt weibo_data))).

(** The states an analyzer goes through: it starts with no pushed id, and
    its three methods are called in any order on any arguments. *)
Inductive reachable (rt : runtime) (cfg : config) : state → Prop :=
| reach_init already_sent : reachable rt cfg (init_state already_sent)
| reach_classify st text :
    reachable rt cfg st →
    reachable rt cfg (snd (is_stock_related rt cfg text st))
| reach_push st content weibo_data :
    reachable rt cfg st →
    reachable rt cfg (snd (push_to_weixin rt cfg content weibo_data st))
| reach_analyze st weibo_data :
    reachable rt cfg st →
    reachable rt cfg (snd (analyze_and_push rt cfg weibo_data st)).

(** ** Sample data *)

(** A chat-completion body whose first choice carries [content]. *)
Definition chat_reply (content : pystr) : json :=
  JDict
    [(cp "id", JStr (cp "20251218083400"));
     (cp "choices",
      JList
        [JDict [(cp "index", JInt 0);
                (cp "finish_reason", JStr (cp "stop"));
                (cp "message",
                 JDict [(cp "role", JStr (cp "assistant"));
                        (cp "content", JStr content)])]])].

Definition webhook_ok : json :=
  JDict [(cp "errcode", JInt 0); (cp "errmsg", JStr (cp "ok"))].

(** [repr] for a text without quotes, backslashes or unprintable
    characters. *)
Definition repr_plain (s : pystr) : pystr := [39%N] ++ s ++ [39%N].

(** A network that is down. *)
Definition runtime_down : runtime :=
  {| respond := fun _ _ => Fault;
     repr_str := repr_plain;
     local_utcoffset := fun _ => 28800 |}.

(** A network on which the model fails once and then answers [reply], and
    the webhook acknowledges. *)
Definition runtime_up (reply : pystr) : runtime :=
  {| respond := fun hist req =>
       if decide (url req = llm_url) then
         match hist with
         | [] => Response 500 None
         | _ => Response 200 (Some (chat_reply reply))
         end
       else Response 200 (Some webhook_ok);
     repr_str := repr_plain;
     local_utcoffset := fun _ => 28800 |}.

Definition sample_config : config :=
  init_config
    (Some {| cfg_enabled := Some true;
             cfg_zhipu_api_key := Some (cp "0123456789abcdef.secret");
             cfg_webhook_url :=
               Some (cp "https://qyapi.weixin.qq.com/cgi-bin/webhook/send?key=k");
             cfg_model := None;
             cfg_max_retries := None |}).

Definition weibo_timestamp : pystr :=
  Eval vm_compute in cp "Thu Dec 18 08:33:17 +0800 2025".

Definition sample_post : post :=
  <["id" := VInt 5245678901234567]>
    (<["user_id" := VInt 1669879400]>
       (<["text" := VStr (cp "贵州茅台今日放量上涨")]>
          (<["created_at" := VStr (cp "2025-12-16 10:00:00")]> ∅))).

Definition sample_analysis : pystr :=
  Eval vm_compute in cp "涉及贵州茅台(600519)，观点偏多。".

(** The state after the sample post was analysed and pushed. *)
Definition state_after_push : state :=
  snd (analyze_and_push (runtime_up sample_analysis) sample_config sample_post
         (init_state [])).

(** A network on which the model answers [reply] at once and the webhook
    refuses the message. *)
Definition runtime_refusing (reply : pystr) : runtime :=
  {| respond := fun _ req =>
       if decide (url req = llm_url)
       then Response 200 (Some (chat_reply reply))
       else Response 200
              (Some (JDict [(cp "errcode", JInt 93000);
                            (cp "errmsg", JStr (cp "invalid webhook url"))]));
     repr_str := repr_plain;
     local_utcoffset := fun _ => 28800 |}.

(** The states that calls of the three methods, in any order and on any
    arguments, lead to from a given state. *)
Inductive calls (rt : runtime) (cfg : config) : state → state → Prop :=
| calls_none st : calls rt cfg st st
| calls_classify st st' text :
    calls rt cfg st st' →
    calls rt cfg st (snd (is_stock_related rt cfg text st'))
| calls_push st st' content weibo_data :
    calls rt cfg st st' →
    calls rt cfg st (snd (push_to_weixin rt cfg content weibo_data st'))
| calls_analyze st st' weibo_data :
    calls rt cfg st st' →
    calls rt cfg st (snd (analyze_and_push rt cfg weibo_data st')).

(** The sample configuration without a webhook address. *)
Definition config_without_webhook : config :=
  init_config
    (Some {| cfg_enabled := Some true;
             cfg_zhipu_api_key := Some (cp "0123456789abcdef.secret");
             cfg_webhook_url := None;
             cfg_model := None;
             cfg_max_retries := None |}).

Definition tuesday_timestamp : pystr :=
  Eval vm_compute in cp "Tue Dec 16 08:33:17 +0800 2025".

(** * Properties *)

(** ** Strings *)

Lemma startswith_spec (p s : pystr) :
  startswith s p = true ↔ ∃ after, s = p ++ after.
Proof.
  revert s. induction p as [|a p IH]; intros s; simpl.
  - split; [intros _; exists s; reflexivity | reflexivity].
  - destruct s as [|b s].
    + split; [discriminate | intros [x Hx]; discriminate].
    + rewrite andb_true_iff, N.eqb_eq, IH. split.
      * intros [-> [x ->]]. exists x. reflexivity.
      * intros [x Hx]. injection Hx as -> ->. split; [reflexivity | eauto].
  Qed.

Lemma py_in_spec (needle hay : pystr) :
  py_in needle hay = true ↔ substring needle hay.
Proof.
  unfold substring. induction hay as [|c hay IH].
  - simpl. destruct (startswith [] needle) eqn:E.
    + apply startswith_spec in E as [x Hx].
      split; [intros _; exists [], x; exact Hx | reflexivity].
    + split; [discriminate |].
      intros (b & a & H). destruct b; [|discriminate].
      assert (startswith [] needle = true) by (apply startswith_spec; eauto).
      congruence.
  - simpl. destruct (startswith (c :: hay) needle) eqn:E.
    + apply startswith_spec in E as [x Hx].
      split; [intros _; exists [], x; exact Hx | reflexivity].
    + rewrite IH. split.
      * intros (b & a & ->). exists (c :: b), a. reflexivity.
      * intros (b & a & H). destruct b as [|c' b].
        -- assert (startswith (c :: hay) needle = true)
             by (apply startswith_spec; eauto).
           congruence.
        -- injection H as -> ->. eauto.
Qed.

(** ** Requests and states *)

Lemma sent_more_nil st : sent_more st [] = st.
Proof. destruct st. unfold sent_more. simpl. rewrite app_nil_r. reflexivity. Qed.

Lemma sent_more_app st a b :
  sent_more (sent_more st a) b = sent_more st (a ++ b).
Proof. unfold sent_more. simpl. rewrite app_assoc. reflexivity. Qed.

Lemma sent_sent_more st reqs : sent (sent_more st reqs) = sent st ++ reqs.
Proof. reflexivity. Qed.

Lemma requests_post_run rt req st :
  requests_post rt req st = (respond rt (sent st) req, sent_more st [req]).
Proof. reflexivity. Qed.

Lemma py_range_seq (n : Z) : py_range n = map Z.of_nat (seq 0 (Z.to_nat n)).
Proof. reflexivity. Qed.

(** ** The classifier *)

Section Classifier.

Context (rt : runtime) (cfg : config).

(** A failed attempt leaves the loop to go on with the attempts that are
    left: the test on [attempt] only notices that none is. *)
Lemma attempts_loop_failed req (i m : nat) st :
  Z.of_nat (i + S m) = max_retries cfg →
  attempt_fails (respond rt (sent st) req) →
  attempts_loop rt cfg req (map Z.of_nat (seq i (S m))) st
  = attempts_loop rt cfg req (map Z.of_nat (seq (S i) m)) (sent_more st [req]).
Proof.
  intros Hn Hfail.
  assert (Hrest : (if Z.of_nat i <? max_retries cfg - 1
                   then attempts_loop rt cfg req (map Z.of_nat (seq (S i) m))
                   else ret (false, []))
                  = attempts_loop rt cfg req (map Z.of_nat (seq (S i) m))).
  { destruct (Z.ltb_spec (Z.of_nat i) (max_retries cfg - 1)); [reflexivity|].
    destruct m; [reflexivity | lia]. }
  cbn [seq map attempts_loop]. unfold bind at 1. rewrite requests_post_run.
  rewrite Hrest.
  destruct (respond rt (sent st) req) as [|status reply]; [reflexivity|].
  destruct (Z.eqb_spec status 200) as [->|]; [|reflexivity].
  destruct Hfail as [Hs | Hr]; [congruence | rewrite Hr; reflexivity].
Qed.

Lemma attempts_loop_skip req :
  ∀ (k m i : nat) st,
    Z.of_nat (i + m) = max_retries cfg →
    (k ≤ m)%nat →
    (∀ j, (j < k)%nat →
          attempt_fails (respond rt (sent st ++ replicate j req) req)) →
    attempts_loop rt cfg req (map Z.of_nat (seq i m)) st
    = attempts_loop rt cfg req (map Z.of_nat (seq (i + k) (m - k)))
        (sent_more st (replicate k req)).
Proof.
  induction k as [|k IH]; intros m i st Hn Hk Hfail.
  - rewrite Nat.add_0_r, Nat.sub_0_r. simpl. rewrite sent_more_nil. reflexivity.
  - destruct m as [|m]; [lia|].
    rewrite attempts_loop_failed; [|assumption|].
    2:{ specialize (Hfail 0%nat ltac:(lia)). simpl in Hfail.
        rewrite app_nil_r in Hfail. exact Hfail. }
    rewrite (IH m (S i)); [| lia | lia |].
    + rewrite sent_more_app.
      replace (S i + k)%nat with (i + S k)%nat by lia. reflexivity.
    + intros j Hj. specialize (Hfail (S j) ltac:(lia)). simpl in *.
      rewrite <- app_assoc. exact Hfail.
Qed.

(** C3. When the feature is on, a key is configured and every attempt at the
    classification endpoint fails (a status other than 200, or a fault of
    the transport or of the parsing), [is_stock_related] returns
    [(False, "")], and all it has done is to send the request [max_retries]
    times, one straight after the other. *)
Theorem is_stock_related_exhausts_retries text st :
  enabled cfg = true →
  configured (api_key cfg) = true →
  0 ≤ max_retries cfg →
  (∀ j, (j < Z.to_nat (max_retries cfg))%nat →
        attempt_fails
          (respond rt (sent st ++ replicate j (llm_request rt cfg text))
             (llm_request rt cfg text))) →
  is_stock_related rt cfg text st
  = ((false, []),
     sent_more st
       (replicate (Z.to_nat (max_retries cfg)) (llm_request rt cfg text)))
  ∧ Z.of_nat (length (sent (snd (is_stock_related rt cfg text st))))
    = Z.of_nat (length (sent st)) + max_retries cfg.
Proof.
  intros Hen Hkey Hmax Hfail.
  assert (Hrun : is_stock_related rt cfg text st
                 = ((false, []),
                    sent_more st
                      (replicate (Z.to_nat (max_retries cfg))
                         (llm_request rt cfg text)))).
  { unfold is_stock_related. rewrite Hen, Hkey. cbn [negb orb].
    rewrite py_range_seq.
    rewrite (attempts_loop_skip _ (Z.to_nat (max_retries cfg)));
      [| lia | lia | exact Hfail].
    rewrite Nat.sub_diag. reflexivity. }
  split; [exact Hrun|].
  rewrite Hrun. simpl. rewrite length_app, length_replicate. lia.
Qed.

(** C4. When the feature is on and a key is configured, and an attempt
    within [max_retries] is the first not to fail, its status being 200 and
    its body carrying the reply text [reply], [is_stock_related] returns the
    stripped reply, and [is_related] is false exactly when the stripped reply
    contains the marker [不相关]. *)
Theorem is_stock_related_marker_rule text st (k : nat) result reply :
  enabled cfg = true →
  configured (api_key cfg) = true →
  Z.of_nat k < max_retries cfg →
  (∀ j, (j < k)%nat →
        attempt_fails
          (respond rt (sent st ++ replicate j (llm_request rt cfg text))
             (llm_request rt cfg text))) →
  respond rt (sent st ++ replicate k (llm_request rt cfg text))
    (llm_request rt cfg text) = Response 200 (Some result) →
  reply_content result = Some reply →
  ∃ is_related,
    fst (is_stock_related rt cfg text st) = (is_related, strip reply)
    ∧ (is_related = false ↔ substring not_related_marker (strip reply)).
Proof.
  intros Hen Hkey Hk Hfail Hresp Hreply.
  exists (negb (py_in not_related_marker (strip reply))). split.
  - unfold is_stock_related. rewrite Hen, Hkey. cbn [negb orb].
    rewrite py_range_seq.
    rewrite (attempts_loop_skip _ k); [| lia | lia | exact Hfail].
    destruct (Z.to_nat (max_retries cfg) - k)%nat as [|m] eqn:Hm; [lia|].
    cbn [seq map attempts_loop]. unfold bind at 1.
    rewrite requests_post_run, sent_sent_more, Hresp.
    cbn [Z.eqb Pos.eqb mbind option_bind]. rewrite Hreply. reflexivity.
  - rewrite negb_false_iff. apply py_in_spec.
Qed.

(** Whatever the answers, the classifier only sends its own request, some
    number of times. *)
Lemma attempts_loop_sends req attempts :
  ∀ st, ∃ n, snd (attempts_loop rt cfg req attempts st)
             = sent_more st (replicate n req).
Proof.
  induction attempts as [|attempt rest IH]; intros st.
  - exists 0%nat. simpl. rewrite sent_more_nil. reflexivity.
  - assert (Hfailed :
      ∃ n, snd ((if attempt <? max_retries cfg - 1
                 then attempts_loop rt cfg req rest
                 else ret (false, [])) (sent_more st [req]))
           = sent_more st (replicate n req)).
    { destruct (attempt <? max_retries cfg - 1).
      - destruct (IH (sent_more st [req])) as [n Hn]. exists (S n).
        rewrite Hn, sent_more_app. reflexivity.
      - exists 1%nat. reflexivity. }
    cbn [attempts_loop]. unfold bind at 1. rewrite requests_post_run.
    destruct (respond rt (sent st) req) as [|status reply]; [exact Hfailed|].
    destruct (status =? 200); [|exact Hfailed].
    destruct (reply ≫= reply_content); [|exact Hfailed].
    exists 1%nat. reflexivity.
Qed.

Lemma is_stock_related_sends text st :
  ∃ n, snd (is_stock_related rt cfg text st)
       = sent_more st (replicate n (llm_request rt cfg text)).
Proof.
  unfold is_stock_related.
  destruct (negb (enabled cfg) || negb (configured (api_key cfg))).
  - exists 0%nat. simpl. rewrite sent_more_nil. reflexivity.
  - apply attempts_loop_sends.
Qed.

End Classifier.

(** ** The notifier *)

Lemma acknowledged_b_spec o : acknowledged_b o = true ↔ acknowledged o.
Proof.
  unfold acknowledged. split.
  - destruct o as [|status [result|]]; simpl; try discriminate.
    + destruct (Z.eqb_spec status 200) as [->|]; [|discriminate].
      destruct result as [| | | | | |d]; simpl; try discriminate.
      destruct (items_get d (cp "errcode")) as [code|] eqn:E; [|discriminate].
      intros H. exists d, code. auto.
    + destruct (status =? 200); discriminate.
  - intros (d & code & -> & Hget & Hz). simpl. rewrite Hget. exact Hz.
Qed.

Lemma push_to_weixin_run rt cfg content weibo_data st :
  push_to_weixin rt cfg content weibo_data st
  = if configured (webhook_url cfg)
    then (acknowledged_b
            (respond rt (sent st)
               (webhook_request (default [] (webhook_url cfg))
                  (message rt weibo_data))),
          sent_more st
            [webhook_request (default [] (webhook_url cfg))
               (message rt weibo_data)])
    else (false, st).
Proof.
  unfold push_to_weixin. destruct (configured (webhook_url cfg)); [|reflexivity].
  cbn [negb]. unfold bind. rewrite requests_post_run.
  destruct (respond rt (sent st) _) as [|status result]; [reflexivity|].
  unfold acknowledged_b.
  destruct (status =? 200); [|reflexivity].
  destruct (result ≫= errcode_is_zero); reflexivity.
Qed.

(** C6. [push_to_weixin] returns [True] exactly when a webhook address is
    configured and the webhook answers the one request with status 200 and
    a body whose [errcode] equals 0; whatever the answer, it sends that
    request once and returns a boolean, and it sends none without an
    address. *)
Theorem push_to_weixin_true_iff_acknowledged rt cfg content weibo_data st :
  (fst (push_to_weixin rt cfg content weibo_data st) = true
   ↔ configured (webhook_url cfg) = true
     ∧ acknowledged
         (respond rt (sent st)
            (webhook_request (default [] (webhook_url cfg))
               (message rt weibo_data))))
  ∧ snd (push_to_weixin rt cfg content weibo_data st)
    = (if configured (webhook_url cfg)
       then sent_more st
              [webhook_request (default [] (webhook_url cfg))
                 (message rt weibo_data)]
       else st).
Proof.
  rewrite push_to_weixin_run.
  destruct (configured (webhook_url cfg)); simpl; split; try reflexivity.
  - rewrite acknowledged_b_spec. tauto.
  - split; [discriminate | intros [? _]; discriminate].
Qed.

Lemma dict_get_insert_ne (d : post) k k' v default :
  k ≠ k' → dict_get (<[k := v]> d) k' default = dict_get d k' default.
Proof. intros H. unfold dict_get. rewrite lookup_insert_ne by exact H. reflexivity. Qed.

Lemma dict_get_insert_eq (d : post) k v default :
  dict_get (<[k := v]> d) k default = v.
Proof. unfold dict_get. rewrite lookup_insert_eq. reflexivity. Qed.

(** The message does not read the analysis stored in the post. *)
Lemma message_ignores_stock_analysis rt (weibo_data : post) v :
  message rt (<["stock_analysis" := v]> weibo_data) = message rt weibo_data.
Proof.
  unfold message, message_parts.
  rewrite !dict_get_insert_ne by discriminate. reflexivity.
Qed.

(** C10. [push_to_weixin] does not depend on its first argument: with the
    same post, configuration, runtime and state, two analysis texts give
    the same request, the same boolean and the same state; and the message
    it sends is the same whatever analysis the post carries. *)
Theorem push_to_weixin_ignores_content rt cfg (c1 c2 : pystr) weibo_data st :
  push_to_weixin rt cfg c1 weibo_data st = push_to_weixin rt cfg c2 weibo_data st
  ∧ ∀ v, message rt (<["stock_analysis" := v]> weibo_data) = message rt weibo_data.
Proof.
  split; [reflexivity|]. intros v. apply message_ignores_stock_analysis.
Qed.

(** ** The orchestrator *)

Lemma webhook_request_not_llm rt cfg hook msg text :
  webhook_request hook msg ≠ llm_request rt cfg text.
Proof. intros H. apply (f_equal timeout) in H. discriminate. Qed.

Lemma locate_among_copies {A} (pre : list A) (l x : A) n hist rest :
  pre ++ replicate n l = hist ++ x :: rest →
  (length pre ≤ length hist)%nat → x = l.
Proof.
  intros Heq Hlen.
  assert (H : (pre ++ replicate n l) !! length hist = Some x)
    by (rewrite Heq; apply list_lookup_middle; reflexivity).
  rewrite lookup_app_r in H by exact Hlen.
  apply lookup_replicate in H as [-> _]. reflexivity.
Qed.

Lemma locate_last {A} (pre : list A) (l w x : A) n hist rest :
  pre ++ replicate n l ++ [w] = hist ++ x :: rest →
  (length pre ≤ length hist)%nat → x ≠ l →
  hist = pre ++ replicate n l ∧ x = w.
Proof.
  intros Heq Hlen Hne.
  assert (H : (pre ++ replicate n l ++ [w]) !! length hist = Some x)
    by (rewrite Heq; apply list_lookup_middle; reflexivity).
  rewrite lookup_app_r in H by exact Hlen.
  destruct (decide (length hist - length pre < n)%nat) as [Hlt|Hge].
  - rewrite lookup_app_l in H by (rewrite length_replicate; exact Hlt).
    apply lookup_replicate in H as [-> _]. congruence.
  - rewrite lookup_app_r in H by (rewrite length_replicate; lia).
    rewrite length_replicate in H.
    destruct (length hist - length pre - n)%nat as [|j] eqn:Hj;
      [|destruct j; discriminate].
    injection H as ->.
    rewrite app_assoc in Heq.
    apply app_inj_1 in Heq as [<- _]; [split; reflexivity|].
    rewrite length_app, length_replicate. lia.
Qed.

Section Orchestrator.

Context (rt : runtime) (cfg : config).

(** C8. When the feature is off, or the post has no text or an empty one,
    [analyze_and_push] returns the post as it was given, so with no
    [stock_analysis] added, and the state is unchanged: no request is sent,
    neither to the classifier nor to the webhook. *)
Theorem analyze_and_push_skips (weibo_data : post) st :
  enabled cfg = false
  ∨ weibo_data !! "text" = None
  ∨ weibo_data !! "text" = Some (VStr []) →
  analyze_and_push rt cfg weibo_data st = ((Returned, weibo_data), st)
  ∧ (snd (fst (analyze_and_push rt cfg weibo_data st))) !! "stock_analysis"
    = weibo_data !! "stock_analysis".
Proof.
  intros H.
  assert (Hrun : analyze_and_push rt cfg weibo_data st
                 = ((Returned, weibo_data), st)).
  { unfold analyze_and_push. destruct (enabled cfg); [|reflexivity].
    destruct H as [H | [H | H]]; [discriminate | |];
      unfold dict_get; rewrite H; reflexivity. }
  rewrite Hrun. split; reflexivity.
Qed.

(** C9. On every path of [analyze_and_push], the post it leaves agrees with
    the post it was given on every key other than [stock_analysis]. *)
Theorem analyze_and_push_frame (weibo_data : post) st (key : string) :
  key ≠ "stock_analysis" →
  (snd (fst (analyze_and_push rt cfg weibo_data st))) !! key = weibo_data !! key.
Proof.
  intros Hkey. unfold analyze_and_push.
  destruct (enabled cfg); [|reflexivity]. cbn [negb].
  destruct (truthy (dict_get weibo_data "text" (VStr []))); [|reflexivity].
  cbn [negb].
  destruct (truthy (dict_get weibo_data "id" VNone)
            && negb (hashable (dict_get weibo_data "id" VNone)));
    [reflexivity|].
  unfold bind, get_pushed.
  destruct (truthy (dict_get weibo_data "id" VNone)
            && bool_decide (dict_get weibo_data "id" VNone ∈ pushed_weibo_ids st)).
  - destruct (weibo_data !! "stock_analysis"); simpl; [reflexivity|].
    apply lookup_insert_ne. congruence.
  - destruct (is_stock_related rt cfg _ st) as [[is_related analysis] st1].
    destruct (is_related && truthy (dict_get weibo_data "id" VNone)).
    + destruct (push_to_weixin rt cfg analysis _ st1) as [[|] st2]; simpl;
        apply lookup_insert_ne; congruence.
    + simpl. apply lookup_insert_ne. congruence.
Qed.

(** The shape of a run of [analyze_and_push]: it leaves the state alone, or
    it classifies and then, for a related post with an id, pushes and
    records the id when the push succeeds. *)
Lemma analyze_and_push_run (weibo_data : post) st :
  let weibo_id := dict_get weibo_data "id" VNone in
  let text := dict_get weibo_data "text" (VStr []) in
  let st' := snd (analyze_and_push rt cfg weibo_data st) in
  st' = st
  ∨ ∃ n is_related analysis,
      let st1 := sent_more st (replicate n (llm_request rt cfg text)) in
      let data := <["stock_analysis" := VAnalysis is_related analysis]> weibo_data in
      (truthy weibo_id = true → hashable weibo_id = true)
      ∧ (is_related && truthy weibo_id = false ∧ st' = st1
         ∨ is_related && truthy weibo_id = true
           ∧ st' = if fst (push_to_weixin rt cfg analysis data st1)
                   then add_pushed weibo_id
                          (snd (push_to_weixin rt cfg analysis data st1))
                   else snd (push_to_weixin rt cfg analysis data st1)).
Proof.
  intros weibo_id text st'. subst st'. unfold analyze_and_push.
  destruct (enabled cfg); [|left; reflexivity]. cbn [negb].
  fold text. destruct (truthy text); [|left; reflexivity]. cbn [negb].
  fold weibo_id.
  destruct (truthy weibo_id && negb (hashable weibo_id)) eqn:Hhash;
    [left; reflexivity|].
  unfold bind, get_pushed.
  destruct (truthy weibo_id && bool_decide (weibo_id ∈ pushed_weibo_ids st)).
  { left. destruct (weibo_data !! "stock_analysis"); reflexivity. }
  right.
  destruct (is_stock_related_sends rt cfg text st) as [n Hn].
  destruct (is_stock_related rt cfg text st) as [[is_related analysis] st1].
  simpl in Hn. subst st1.
  exists n, is_related, analysis. cbv zeta. split.
  { intros Ht. rewrite Ht in Hhash. simpl in Hhash.
    destruct (hashable weibo_id); [reflexivity | discriminate]. }
  destruct (is_related && truthy weibo_id); [right | left; split; reflexivity].
  split; [reflexivity|].
  destruct (push_to_weixin rt cfg analysis _ _) as [[|] st2]; reflexivity.
Qed.

(** Requests of the classifier are no delivery. *)
Lemma not_delivered_by_classifying (weibo_data : post) st n text :
  ¬ delivered rt cfg weibo_data st
      (sent_more st (replicate n (llm_request rt cfg text))).
Proof.
  intros (hook & hist & rest & _ & Hs & Hl & _).
  rewrite sent_sent_more in Hs.
  apply locate_among_copies in Hs; [|exact Hl].
  exact (webhook_request_not_llm _ _ _ _ _ Hs).
Qed.

Lemma not_delivered_in_place (weibo_data : post) st :
  ¬ delivered rt cfg weibo_data st st.
Proof.
  rewrite <- (sent_more_nil st) at 2.
  apply (not_delivered_by_classifying weibo_data st 0 VNone).
Qed.

(** C1. After a run of [analyze_and_push], an identifier is in
    [pushed_weibo_ids] exactly when it was there before, or it is the id of
    the post and a webhook delivery for the post was acknowledged during
    the run. *)
Theorem pushed_iff_delivered (weibo_data : post) st (i : pyval) :
  i ∈ pushed_weibo_ids (snd (analyze_and_push rt cfg weibo_data st))
  ↔ i ∈ pushed_weibo_ids st
    ∨ (i = dict_get weibo_data "id" VNone
       ∧ delivered rt cfg weibo_data st
           (snd (analyze_and_push rt cfg weibo_data st))).
Proof.
  pose proof (analyze_and_push_run weibo_data st) as Hrun.
  cbv zeta in Hrun.
  set (st' := snd (analyze_and_push rt cfg weibo_data st)) in *.
  set (text := dict_get weibo_data "text" (VStr [])) in *.
  set (weibo_id := dict_get weibo_data "id" VNone) in *.
  destruct Hrun as [-> | (n & is_related & analysis & _ & Hrun)].
  { pose proof (not_delivered_in_place weibo_data st). tauto. }
  destruct Hrun as [[_ ->] | [_ ->]].
  { pose proof (not_delivered_by_classifying weibo_data st n text).
    cbn [pushed_weibo_ids sent_more]. tauto. }
  rewrite push_to_weixin_run, message_ignores_stock_analysis.
  destruct (configured (webhook_url cfg)) eqn:Hcfg; cbn [fst snd].
  2:{ pose proof (not_delivered_by_classifying weibo_data st n text).
      cbn [pushed_weibo_ids sent_more]. tauto. }
  destruct (webhook_url cfg) as [hook|] eqn:Hhook; [|discriminate].
  change (default [] (Some hook)) with hook.
  set (wreq := webhook_request hook (message rt weibo_data)).
  set (st1 := sent_more st (replicate n (llm_request rt cfg text))).
  destruct (acknowledged_b (respond rt (sent st1) wreq)) eqn:Hack.
  - unfold add_pushed. cbn [pushed_weibo_ids sent_more].
    rewrite elem_of_union, elem_of_singleton.
    assert (delivered rt cfg weibo_data st
              {| pushed_weibo_ids := {[weibo_id]} ∪ pushed_weibo_ids st;
                 sent := sent (sent_more st1 [wreq]) |}).
    { exists hook, (sent st1), []. split; [exact Hhook|].
      split; [reflexivity|]. split.
      - subst st1. rewrite sent_sent_more, length_app. lia.
      - apply acknowledged_b_spec. exact Hack. }
    tauto.
  - split; [intros H; left; exact H|].
    intros [H | [_ (hook' & hist & rest & Hh & Hs & Hl & Hok)]]; [exact H|].
    rewrite Hhook in Hh. injection Hh as <-. fold wreq in Hs, Hok.
    subst st1. rewrite !sent_sent_more in Hs.
    rewrite <- app_assoc in Hs.
    apply locate_last in Hs as [-> _];
      [| exact Hl | apply webhook_request_not_llm].
    apply acknowledged_b_spec in Hok. rewrite sent_sent_more in Hack.
    congruence.
Qed.

(** Every id recorded as pushed is one for which [bool(id)] is true and
    which can be hashed. *)
Lemma reachable_pushed_truthy st :
  reachable rt cfg st →
  ∀ v, v ∈ pushed_weibo_ids st → truthy v = true ∧ hashable v = true.
Proof.
  induction 1 as [s0 | st text _ IH | st content data _ IH | st data _ IH];
    intros v Hv.
  - simpl in Hv. apply not_elem_of_empty in Hv. contradiction.
  - destruct (is_stock_related_sends rt cfg text st) as [n Hn].
    rewrite Hn in Hv. apply IH. exact Hv.
  - rewrite push_to_weixin_run in Hv.
    destruct (configured (webhook_url cfg)); apply IH; exact Hv.
  - pose proof (analyze_and_push_run data st) as Hrun. cbv zeta in Hrun.
    destruct Hrun as [Hrun | (n & r & a & Hhash & Hrun)].
    { rewrite Hrun in Hv. apply IH. exact Hv. }
    destruct Hrun as [[_ Hrun] | [Hid Hrun]]; rewrite Hrun in Hv.
    { apply IH. exact Hv. }
    rewrite push_to_weixin_run in Hv.
    apply andb_true_iff in Hid as [_ Hid].
    destruct (configured (webhook_url cfg)); cbn [fst snd] in Hv;
      [|apply IH; exact Hv].
    destruct (acknowledged_b _); [|apply IH; exact Hv].
    unfold add_pushed in Hv. cbn [pushed_weibo_ids] in Hv.
    apply elem_of_union in Hv as [Hv | Hv]; [|apply IH; exact Hv].
    apply elem_of_singleton in Hv. subst v. auto.
Qed.

(** C5. The feature being on and the text not empty, a post whose id is
    already in [pushed_weibo_ids] is returned with the state unchanged, so
    that no request went to the classifier or to the webhook; the sentinel
    analysis is attached when the post carries no [stock_analysis], and a
    post that carries one is returned as it was given. *)
Theorem analyze_and_push_already_pushed (weibo_data : post) st :
  reachable rt cfg st →
  enabled cfg = true →
  truthy (dict_get weibo_data "text" (VStr [])) = true →
  dict_get weibo_data "id" VNone ∈ pushed_weibo_ids st →
  ∃ data,
    analyze_and_push rt cfg weibo_data st = ((Returned, data), st)
    ∧ (weibo_data !! "stock_analysis" = None →
       data = <["stock_analysis" := VAnalysis true already_pushed_note]> weibo_data)
    ∧ (is_Some (weibo_data !! "stock_analysis") → data = weibo_data).
Proof.
  intros Hreach Hen Htext Hin.
  destruct (reachable_pushed_truthy st Hreach _ Hin) as [Htruthy Hhash].
  unfold analyze_and_push. rewrite Hen, Htext, Htruthy, Hhash. cbn [negb andb].
  unfold bind, get_pushed. rewrite (bool_decide_eq_true_2 _ Hin).
  destruct (weibo_data !! "stock_analysis") as [v|] eqn:Hsa.
  - exists weibo_data. split; [reflexivity|].
    split; [discriminate | reflexivity].
  - eexists. split; [reflexivity|].
    split; [reflexivity | intros [? ?]; discriminate].
Qed.

End Orchestrator.

(** ** The message *)

Lemma weibo_url_truthy rt user_id weibo_id :
  truthy (VStr (weibo_url rt user_id weibo_id)) = truthy user_id && truthy weibo_id.
Proof.
  unfold weibo_url. destruct (truthy user_id && truthy weibo_id); reflexivity.
Qed.

(** C7, as the code has it.  The message is, in order: the line
    [发博时间: <time>] when a time is available; a line break and the text of
    the post; and, when both the user id and the post id are present, a
    blank line and the line [链接: https://weibo.com/<user_id>/<id>].  So the
    text is one line break, not a blank line, away from the time line. *)
Theorem message_layout rt (weibo_data : post) :
  let text := dict_get weibo_data "text" (VStr []) in
  let time := beijing_time_str rt (dict_get weibo_data "created_at" (VStr [])) in
  let weibo_id := dict_get weibo_data "id" (VStr []) in
  let user_id := dict_get weibo_data "user_id" (VStr []) in
  message rt weibo_data
  = (if truthy time then posted_at_label ++ py_str rt time else [])
      ++ (newline ++ py_str rt text)
      ++ (if truthy user_id && truthy weibo_id
          then newline ++ newline ++ link_label
                 ++ cp "https://weibo.com/" ++ py_str rt user_id
                 ++ cp "/" ++ py_str rt weibo_id
          else []).
Proof.
  intros text time weibo_id user_id. unfold message, message_parts.
  fold text time weibo_id user_id. rewrite weibo_url_truthy.
  rewrite !concat_app. f_equal.
  - destruct (truthy time); cbn [concat]; [apply app_nil_r | reflexivity].
  - f_equal; [cbn [concat]; apply app_nil_r|].
    unfold weibo_url.
    destruct (truthy user_id && truthy weibo_id); cbn [concat];
      [rewrite app_nil_r; reflexivity | reflexivity].
Qed.

(** C7, as it is worded, fails: for the sample post the message has one
    line break between the time line and the text where the wording asks
    for a blank line. *)
Lemma message_differs_from_spec_message :
  message (runtime_up sample_analysis) sample_post
  = cp "发博时间: 2025-12-16 10:00:00
贵州茅台今日放量上涨

链接: https://weibo.com/1669879400/5245678901234567"
  ∧ spec_message (runtime_up sample_analysis) sample_post
    = cp "发博时间: 2025-12-16 10:00:00

贵州茅台今日放量上涨

链接: https://weibo.com/1669879400/5245678901234567"
  ∧ message (runtime_up sample_analysis) sample_post
    ≠ spec_message (runtime_up sample_analysis) sample_post.
Proof.
  split; [vm_compute; reflexivity|].
  split; [vm_compute; reflexivity|].
  vm_compute. discriminate.
Qed.

(** C2.  The timestamp [Thu Dec 18 08:33:17 +0800 2025] holds a [T], so the
    notifier hands it to [fromisoformat], which rejects it; the handler then
    keeps the raw text, and the raw text is what the time line of the
    message shows, not [2025-12-18 08:33:17].  The branch written for this
    format, had it been taken, gives [2025-12-18 08:33:17]. *)
Theorem weibo_timestamp_rendered_raw rt (weibo_data : post) :
  py_in (cp "T") weibo_timestamp = true
  ∧ PyDatetime.fromisoformat (replace_char 90 (cp "+00:00") weibo_timestamp) = None
  ∧ beijing_time_str rt (VStr weibo_timestamp) = VStr weibo_timestamp
  ∧ beijing_time_str rt (VStr weibo_timestamp) ≠ VStr (cp "2025-12-18 08:33:17")
  ∧ (∃ rest,
       message_parts rt (<["created_at" := VStr weibo_timestamp]> weibo_data)
       = (posted_at_label ++ weibo_timestamp) :: rest)
  ∧ PyDatetime.strftime
      <$> (PyDatetime.strptime_weibo weibo_timestamp
             ≫= PyDatetime.astimezone_shanghai rt)
    = Some (cp "2025-12-18 08:33:17").
Proof.
  assert (Hraw : beijing_time_str rt (VStr weibo_timestamp) = VStr weibo_timestamp)
    by (vm_compute; reflexivity).
  split; [vm_compute; reflexivity|].
  split; [vm_compute; reflexivity|].
  split; [exact Hraw|].
  split; [rewrite Hraw; vm_compute; discriminate|].
  split; [|vm_compute; reflexivity].
  unfold message_parts. rewrite dict_get_insert_eq, Hraw.
  eexists. reflexivity.
Qed.

(** ** Sample runs *)

Lemma is_stock_related_exhausts_retries_witness :
  is_stock_related runtime_down sample_config (VStr (cp "今天天气不错"))
    (init_state [])
  = ((false, []),
     sent_more (init_state [])
       (replicate (Z.to_nat (max_retries sample_config))
          (llm_request runtime_down sample_config (VStr (cp "今天天气不错")))))
  ∧ Z.of_nat
      (length
         (sent
            (snd
               (is_stock_related runtime_down sample_config
                  (VStr (cp "今天天气不错")) (init_state [])))))
    = Z.of_nat (length (sent (init_state []))) + max_retries sample_config.
Proof.
  apply is_stock_related_exhausts_retries.
  - reflexivity.
  - reflexivity.
  - simpl. lia.
  - intros j _. simpl. exact I.
Defined.

Lemma is_stock_related_marker_rule_witness :
  ∃ is_related,
    fst (is_stock_related (runtime_up (cp " 不相关。 ")) sample_config
           (VStr (cp "今天天气不错")) (init_state []))
    = (is_related, strip (cp " 不相关。 "))
    ∧ (is_related = false
       ↔ substring not_related_marker (strip (cp " 不相关。 "))).
Proof.
  apply (is_stock_related_marker_rule (runtime_up (cp " 不相关。 "))
           sample_config (VStr (cp "今天天气不错")) (init_state []) 1
           (chat_reply (cp " 不相关。 "))).
  - reflexivity.
  - reflexivity.
  - simpl. lia.
  - intros j Hj. destruct j; [|lia]. simpl. left. discriminate.
  - reflexivity.
  - reflexivity.
Defined.

Lemma analyze_and_push_already_pushed_witness :
  ∃ data,
    analyze_and_push (runtime_up sample_analysis) sample_config sample_post
      state_after_push
    = ((Returned, data), state_after_push)
    ∧ (sample_post !! "stock_analysis" = None →
       data = <["stock_analysis" := VAnalysis true already_pushed_note]> sample_post)
    ∧ (is_Some (sample_post !! "stock_analysis") → data = sample_post).
Proof.
  apply analyze_and_push_already_pushed.
  - unfold state_after_push. apply reach_analyze, reach_init.
  - reflexivity.
  - reflexivity.
  - apply (bool_decide_unpack _). vm_compute. exact I.
Defined.

Lemma analyze_and_push_skips_witness :
  analyze_and_push (runtime_up sample_analysis) sample_config
    (<["text" := VStr []]> sample_post) (init_state [])
  = ((Returned, <["text" := VStr []]> sample_post), init_state [])
  ∧ (snd (fst (analyze_and_push (runtime_up sample_analysis) sample_config
                 (<["text" := VStr []]> sample_post) (init_state []))))
      !! "stock_analysis"
    = (<["text" := VStr []]> sample_post) !! "stock_analysis".
Proof.
  apply analyze_and_push_skips.
  right. right. apply lookup_insert_eq.
Defined.

Lemma analyze_and_push_frame_witness :
  (snd (fst (analyze_and_push (runtime_up sample_analysis) sample_config
               sample_post (init_state [])))) !! "id"
  = sample_post !! "id".
Proof.
  apply analyze_and_push_frame. discriminate.
Defined.

(** The sample post is delivered: three requests, the last one to the
    webhook and acknowledged, and the id is recorded. *)
Example sample_post_delivered :
  delivered (runtime_up sample_analysis) sample_config sample_post
    (init_state []) state_after_push
  ∧ VInt 5245678901234567 ∈ pushed_weibo_ids state_after_push
  ∧ map timeout (sent state_after_push) = [30; 30; 10].
Proof.
  split; [|split].
  - exists (cp "https://qyapi.weixin.qq.com/cgi-bin/webhook/send?key=k"),
      (take 2 (sent state_after_push)), [].
    split; [reflexivity|]. split; [vm_compute; reflexivity|].
    split; [vm_compute; lia|].
    exists [(cp "errcode", JInt 0); (cp "errmsg", JStr (cp "ok"))], (JInt 0).
    split; [vm_compute; reflexivity|]. split; reflexivity.
  - apply (bool_decide_unpack _). vm_compute. exact I.
  - vm_compute. reflexivity.
Qed.

(** A refused message leaves the set of pushed ids empty, and the analysis
    is attached all the same. *)
Example sample_post_refused :
  let run := analyze_and_push (runtime_refusing sample_analysis) sample_config
               sample_post (init_state []) in
  pushed_weibo_ids (snd run) = ∅
  ∧ map timeout (sent (snd run)) = [30; 10]
  ∧ (snd (fst run)) !! "stock_analysis" = Some (VAnalysis true sample_analysis).
Proof.
  cbv zeta. split; [|split].
  - vm_compute. reflexivity.
  - vm_compute. reflexivity.
  - vm_compute. reflexivity.
Qed.

(** The timestamps of the other shapes. *)
Example iso_timestamp_to_beijing rt :
  beijing_time_str rt (VStr (cp "2025-12-16T10:00:00Z"))
  = VStr (cp "2025-12-16 18:00:00").
Proof. vm_compute. reflexivity. Qed.

Example bare_timestamp_unchanged rt :
  beijing_time_str rt (VStr (cp "2025-12-16 10:00:00"))
  = VStr (cp "2025-12-16 10:00:00").
Proof. vm_compute. reflexivity. Qed.

Example garbage_timestamp_kept rt :
  beijing_time_str rt (VStr (cp "garbage")) = VStr (cp "garbage").
Proof. vm_compute. reflexivity. Qed.

Example weibo_timestamp_of_a_monday rt :
  beijing_time_str rt (VStr (cp "Mon Dec 15 23:33:17 -0500 2025"))
  = VStr (cp "2025-12-16 12:33:17").
Proof. vm_compute. reflexivity. Qed.

(** * Further properties *)

(** ** Stripping *)

Lemma lstrip_idem s : lstrip (lstrip s) = lstrip s.
Proof.
  induction s as [|c s IH]; [reflexivity|]. simpl.
  destruct (py_isspace c) eqn:E; [exact IH|]. simpl. rewrite E. reflexivity.
Qed.

Lemma lstrip_app_single a c :
  lstrip (a ++ [c]) = match lstrip a with
                      | [] => lstrip [c]
                      | l => l ++ [c]
                      end.
Proof.
  induction a as [|x a IH]; [reflexivity|]. simpl.
  destruct (py_isspace x); [exact IH | reflexivity].
Qed.

Lemma rstrip_cons c t :
  rstrip (c :: t) = match rstrip t with
                    | [] => if py_isspace c then [] else [c]
                    | r => c :: r
                    end.
Proof.
  unfold rstrip. simpl rev. rewrite lstrip_app_single.
  destruct (lstrip (rev t)) as [|x l].
  - simpl. destruct (py_isspace c); reflexivity.
  - rewrite rev_app_distr. simpl.
    destruct (rev l ++ [x]) eqn:E; [|reflexivity].
    destruct (rev l); discriminate.
Qed.

Lemma rstrip_idem s : rstrip (rstrip s) = rstrip s.
Proof. unfold rstrip. rewrite rev_involutive, lstrip_idem. reflexivity. Qed.

Lemma rstrip_lstrip t : rstrip t = t → rstrip (lstrip t) = lstrip t.
Proof.
  induction t as [|c t IH]; intros H; [reflexivity|]. simpl.
  destruct (py_isspace c) eqn:E; [|exact H].
  apply IH. rewrite rstrip_cons, E in H.
  destruct (rstrip t); [discriminate | congruence].
Qed.

Lemma strip_idem s : strip (strip s) = strip s.
Proof.
  unfold strip. rewrite rstrip_lstrip by apply rstrip_idem. apply lstrip_idem.
Qed.

Lemma lstrip_split s :
  ∃ before, forallb py_isspace before = true ∧ s = before ++ lstrip s.
Proof.
  induction s as [|c s (b & Hb & Hs)]; [exists []; split; reflexivity|].
  simpl. destruct (py_isspace c) eqn:E.
  - exists (c :: b). simpl. rewrite E, Hb. split; [reflexivity | congruence].
  - exists []. split; reflexivity.
Qed.

Lemma forallb_rev (f : N → bool) l : forallb f (rev l) = forallb f l.
Proof.
  induction l as [|x l IH]; [reflexivity|]. simpl.
  rewrite forallb_app, IH. simpl. rewrite andb_true_r. apply andb_comm.
Qed.

(** A text is its stripped form between two runs of spaces. *)
Lemma strip_split s :
  ∃ before after,
    forallb py_isspace before = true ∧ forallb py_isspace after = true
    ∧ s = before ++ strip s ++ after.
Proof.
  destruct (lstrip_split (rev s)) as (a & Ha & Hs).
  destruct (lstrip_split (rstrip s)) as (b & Hb & Hr).
  exists b, (rev a). split; [exact Hb|]. split; [rewrite forallb_rev; exact Ha|].
  unfold strip. rewrite app_assoc, <- Hr. unfold rstrip.
  rewrite <- rev_app_distr, <- Hs, rev_involutive. reflexivity.
Qed.

Lemma substring_rev needle hay :
  substring needle hay → substring (rev needle) (rev hay).
Proof.
  intros (b & a & ->). exists (rev a), (rev b).
  rewrite !rev_app_distr, app_assoc. reflexivity.
Qed.

Lemma substring_past_spaces c needle before hay :
  py_isspace c = false →
  forallb py_isspace before = true →
  substring (c :: needle) (before ++ hay) → substring (c :: needle) hay.
Proof.
  intros Hc. induction before as [|w before IH]; intros Hw H; [exact H|].
  simpl in Hw. apply andb_true_iff in Hw as [Hw Hbefore].
  apply IH; [exact Hbefore|].
  destruct H as (b & a & H). destruct b as [|x b]; simpl in H.
  - injection H as -> _. congruence.
  - injection H as _ H. exists b, a. exact H.
Qed.

(** X4. Whether the marker occurs is the same for a reply and for its
    stripped form: the spaces taken off at both ends cannot hold a part of
    the marker. *)
Theorem marker_in_stripped_iff_in_raw (reply : pystr) :
  py_in not_related_marker (strip reply) = py_in not_related_marker reply.
Proof.
  destruct (strip_split reply) as (b & a & Hb & Ha & Hs).
  apply eq_true_iff_eq. rewrite !py_in_spec. split.
  - intros (x & y & H). rewrite Hs, H. exists (b ++ x), (y ++ a).
    rewrite <- !app_assoc. reflexivity.
  - intros H. rewrite Hs in H.
    apply (substring_past_spaces _ _ b) in H; [|reflexivity | exact Hb].
    apply substring_rev in H. rewrite rev_app_distr in H.
    apply (substring_past_spaces _ _ (rev a)) in H;
      [|reflexivity | rewrite forallb_rev; exact Ha].
    apply substring_rev in H. rewrite !rev_involutive in H. exact H.
Qed.

(** ** The classifier, whatever the answers *)

Section ClassifierOutcome.

Context (rt : runtime) (cfg : config).

(** The loop sends its request at most once per attempt, and it ends either
    with [(False, "")] or on a 200 answer to its last request, with the
    verdict on the reply read from it. *)
Lemma attempts_loop_outcome req attempts :
  ∀ st, ∃ n,
    (n ≤ length attempts)%nat
    ∧ snd (attempts_loop rt cfg req attempts st) = sent_more st (replicate n req)
    ∧ (fst (attempts_loop rt cfg req attempts st) = (false, [])
       ∨ ∃ m result reply,
           n = S m
           ∧ respond rt (sent st ++ replicate m req) req
             = Response 200 (Some result)
           ∧ reply_content result = Some reply
           ∧ fst (attempts_loop rt cfg req attempts st)
             = (negb (py_in not_related_marker (strip reply)), strip reply)).
Proof.
  induction attempts as [|attempt rest IH]; intros st.
  - exists 0%nat. simpl. rewrite sent_more_nil. auto.
  - set (failed := if attempt <? max_retries cfg - 1
                   then attempts_loop rt cfg req rest
                   else ret (false, [])).
    assert (Hfailed :
      ∃ n, (n ≤ length (attempt :: rest))%nat
        ∧ snd (failed (sent_more st [req])) = sent_more st (replicate n req)
        ∧ (fst (failed (sent_more st [req])) = (false, [])
           ∨ ∃ m result reply,
               n = S m
               ∧ respond rt (sent st ++ replicate m req) req
                 = Response 200 (Some result)
               ∧ reply_content result = Some reply
               ∧ fst (failed (sent_more st [req]))
                 = (negb (py_in not_related_marker (strip reply)),
                    strip reply))).
    { subst failed. destruct (attempt <? max_retries cfg - 1).
      - destruct (IH (sent_more st [req])) as (n & Hn & Hs & Hr).
        exists (S n). split; [simpl; lia|].
        split; [rewrite Hs, sent_more_app; reflexivity|].
        destruct Hr as [Hr | (m & result & reply & -> & Hresp & Hreply & Hr)];
          [left; exact Hr | right].
        exists (S m), result, reply. split; [reflexivity|].
        rewrite sent_sent_more, <- app_assoc in Hresp. auto.
      - exists 1%nat. split; [simpl; lia|]. split; [reflexivity | left; reflexivity]. }
    cbn [attempts_loop]. fold failed. unfold bind at 1 2 3.
    rewrite requests_post_run.
    destruct (respond rt (sent st) req) as [|status reply] eqn:Hresp;
      [exact Hfailed|].
    destruct (Z.eqb_spec status 200) as [->|]; [|exact Hfailed].
    destruct reply as [result|]; [|exact Hfailed]. cbn [mbind option_bind].
    destruct (reply_content result) as [content|] eqn:Hcontent; [|exact Hfailed].
    exists 1%nat. split; [simpl; lia|]. split; [reflexivity|]. right.
    exists 0%nat, result, content. simpl. rewrite app_nil_r. auto.
Qed.

Lemma length_py_range n : length (py_range n) = Z.to_nat n.
Proof. unfold py_range. rewrite length_map, length_seq. reflexivity. Qed.

Lemma is_stock_related_sends_bound text st :
  ∃ n,
    Z.of_nat n ≤ Z.max 0 (max_retries cfg)
    ∧ snd (is_stock_related rt cfg text st)
      = sent_more st (replicate n (llm_request rt cfg text))
    ∧ (negb (enabled cfg) || negb (configured (api_key cfg)) = true → n = 0%nat).
Proof.
  unfold is_stock_related.
  destruct (negb (enabled cfg) || negb (configured (api_key cfg))).
  { exists 0%nat. simpl. rewrite sent_more_nil. split; [lia | auto]. }
  destruct (attempts_loop_outcome (llm_request rt cfg text)
              (py_range (max_retries cfg)) st) as (n & Hn & Hs & _).
  rewrite length_py_range in Hn. exists n.
  split; [lia|]. split; [exact Hs | discriminate].
Qed.

(** X1. Whatever the endpoint answers, [is_stock_related] sends its one
    request at most [max_retries] times (never, when [max_retries] is 0 or
    less, when the feature is off or when no key is configured), and it
    leaves the set of pushed ids as it is. *)
Theorem is_stock_related_request_bound text st :
  ∃ n,
    Z.of_nat n ≤ Z.max 0 (max_retries cfg)
    ∧ snd (is_stock_related rt cfg text st)
      = sent_more st (replicate n (llm_request rt cfg text))
    ∧ (enabled cfg = false ∨ configured (api_key cfg) = false → n = 0%nat).
Proof.
  destruct (is_stock_related_sends_bound text st) as (n & Hn & Hs & H0).
  exists n. split; [exact Hn|]. split; [exact Hs|].
  intros [H | H]; apply H0; rewrite H; [reflexivity | apply orb_true_r].
Qed.

(** X2. [is_stock_related] answers "related" only on the word of the model:
    the feature is on, a key is configured, and the last request it sent,
    one of the first [max_retries], was answered with status 200 and a reply
    whose stripped text is the analysis returned and does not hold the
    marker. *)
Theorem is_stock_related_true_only_on_reply text st :
  fst (fst (is_stock_related rt cfg text st)) = true →
  enabled cfg = true ∧ configured (api_key cfg) = true
  ∧ ∃ m result reply,
      Z.of_nat m < max_retries cfg
      ∧ snd (is_stock_related rt cfg text st)
        = sent_more st (replicate (S m) (llm_request rt cfg text))
      ∧ respond rt (sent st ++ replicate m (llm_request rt cfg text))
          (llm_request rt cfg text) = Response 200 (Some result)
      ∧ reply_content result = Some reply
      ∧ snd (fst (is_stock_related rt cfg text st)) = strip reply
      ∧ ¬ substring not_related_marker (strip reply).
Proof.
  unfold is_stock_related.
  destruct (enabled cfg); cbn [negb orb]; [|discriminate].
  destruct (configured (api_key cfg)); cbn [negb]; [|discriminate].
  intros Htrue. split; [reflexivity|]. split; [reflexivity|].
  destruct (attempts_loop_outcome (llm_request rt cfg text)
              (py_range (max_retries cfg)) st)
    as (n & Hn & Hs & [Hr | (m & result & reply & -> & Hresp & Hreply & Hr)]).
  { rewrite Hr in Htrue. discriminate. }
  rewrite length_py_range in Hn. exists m, result, reply.
  split; [lia|]. split; [exact Hs|]. split; [exact Hresp|].
  split; [exact Hreply|]. rewrite Hr in Htrue |- *. split; [reflexivity|].
  rewrite <- py_in_spec. simpl in Htrue.
  destruct (py_in not_related_marker (strip reply)); [discriminate | congruence].
Qed.

(** X3. The analysis that [is_stock_related] returns never begins or ends
    with a space: stripping it again changes nothing. *)
Theorem is_stock_related_analysis_stripped text st :
  strip (snd (fst (is_stock_related rt cfg text st)))
  = snd (fst (is_stock_related rt cfg text st)).
Proof.
  unfold is_stock_related.
  destruct (negb (enabled cfg) || negb (configured (api_key cfg)));
    [reflexivity|].
  destruct (attempts_loop_outcome (llm_request rt cfg text)
              (py_range (max_retries cfg)) st)
    as (n & _ & _ & [Hr | (m & result & reply & _ & _ & _ & Hr)]);
    rewrite Hr; [reflexivity | apply strip_idem].
Qed.

End ClassifierOutcome.

(** ** The orchestrator, path by path *)

Section OrchestratorPaths.

Context (rt : runtime) (cfg : config).

(** The five ways through [analyze_and_push]: nothing to do; the id cannot
    be hashed; the id is already recorded; the post is classified and not
    pushed; the post is classified and pushed. *)
Lemma analyze_and_push_paths (weibo_data : post) st :
  let weibo_id := dict_get weibo_data "id" VNone in
  let text := dict_get weibo_data "text" (VStr []) in
  let classified := is_stock_related rt cfg text st in
  let data :=
    <["stock_analysis" := VAnalysis (fst (fst classified)) (snd (fst classified))]>
      weibo_data in
  let pushed := push_to_weixin rt cfg (snd (fst classified)) data (snd classified) in
  ((enabled cfg = false ∨ truthy text = false)
   ∧ analyze_and_push rt cfg weibo_data st = ((Returned, weibo_data), st))
  ∨ (enabled cfg = true ∧ truthy text = true
     ∧ truthy weibo_id = true ∧ hashable weibo_id = false
     ∧ analyze_and_push rt cfg weibo_data st = ((Raised_TypeError, weibo_data), st))
  ∨ (enabled cfg = true ∧ truthy text = true
     ∧ truthy weibo_id = true ∧ hashable weibo_id = true
     ∧ weibo_id ∈ pushed_weibo_ids st
     ∧ analyze_and_push rt cfg weibo_data st
       = ((Returned,
           match weibo_data !! "stock_analysis" with
           | None => <["stock_analysis" := VAnalysis true already_pushed_note]>
                       weibo_data
           | Some _ => weibo_data
           end), st))
  ∨ (enabled cfg = true ∧ truthy text = true ∧ hashable weibo_id = true
     ∧ (truthy weibo_id = true → weibo_id ∉ pushed_weibo_ids st)
     ∧ (fst (fst classified) && truthy weibo_id) = false
     ∧ analyze_and_push rt cfg weibo_data st = ((Returned, data), snd classified))
  ∨ (enabled cfg = true ∧ truthy text = true ∧ hashable weibo_id = true
     ∧ truthy weibo_id = true ∧ (weibo_id ∉ pushed_weibo_ids st)
     ∧ fst (fst classified) = true
     ∧ analyze_and_push rt cfg weibo_data st
       = ((Returned, data),
          if fst pushed then add_pushed weibo_id (snd pushed) else snd pushed)).
Proof.
  intros weibo_id text classified data pushed.
  subst pushed data classified. unfold analyze_and_push.
  destruct (enabled cfg); [|left; auto]. cbn [negb].
  fold text. destruct (truthy text); [|left; auto]. cbn [negb].
  fold weibo_id. right.
  destruct (truthy weibo_id) eqn:Hid; cbn [andb].
  - destruct (hashable weibo_id) eqn:Hhash; cbn [negb];
      [right | left; repeat split; reflexivity].
    unfold bind, get_pushed.
    destruct (bool_decide_reflect (weibo_id ∈ pushed_weibo_ids st)) as [Hin|Hin].
    { left. repeat (split; [first [reflexivity | exact Hin]|]).
      destruct (weibo_data !! "stock_analysis"); reflexivity. }
    right.
    destruct (is_stock_related rt cfg text st) as [[is_related analysis] st1].
    cbn [fst snd]. rewrite andb_true_r.
    destruct is_related; [right | left].
    + repeat (split; [first [reflexivity | exact Hin]|]).
      destruct (push_to_weixin rt cfg analysis _ st1) as [[|] st2]; reflexivity.
    + repeat (split; [first [reflexivity | intros _; exact Hin]|]). reflexivity.
  - right. right. left. unfold bind, get_pushed.
    destruct (is_stock_related rt cfg text st) as [[is_related analysis] st1].
    cbn [fst snd]. rewrite andb_false_r.
    assert (hashable weibo_id = true)
      by (destruct weibo_id; [reflexivity.. | discriminate]).
    repeat (split; [first [reflexivity | assumption | discriminate]|]).
    reflexivity.
Qed.

Lemma push_to_weixin_true rt' cfg' content weibo_data st :
  fst (push_to_weixin rt' cfg' content weibo_data st) = true →
  configured (webhook_url cfg') = true.
Proof.
  rewrite push_to_weixin_run.
  destruct (configured (webhook_url cfg')); [reflexivity | discriminate].
Qed.

Lemma is_stock_related_true text st :
  fst (fst (is_stock_related rt cfg text st)) = true →
  enabled cfg = true ∧ configured (api_key cfg) = true.
Proof.
  unfold is_stock_related.
  destruct (enabled cfg); [|discriminate].
  destruct (configured (api_key cfg)); [auto | discriminate].
Qed.

(** An id enters the set only as the id of the post at hand, which the
    classifier found related, with a key and a webhook address configured. *)
Lemma analyze_and_push_records (weibo_data : post) st v :
  v ∈ pushed_weibo_ids (snd (analyze_and_push rt cfg weibo_data st)) →
  v ∈ pushed_weibo_ids st
  ∨ (v = dict_get weibo_data "id" VNone
     ∧ truthy v = true ∧ hashable v = true
     ∧ enabled cfg = true ∧ configured (api_key cfg) = true
     ∧ configured (webhook_url cfg) = true
     ∧ fst (fst (is_stock_related rt cfg
                   (dict_get weibo_data "text" (VStr [])) st)) = true).
Proof.
  pose proof (analyze_and_push_paths weibo_data st) as H. cbv zeta in H.
  destruct H as [[_ ->] | [(_ & _ & _ & _ & ->) | [(_ & _ & _ & _ & _ & ->)
    | [(_ & _ & _ & _ & _ & ->) | (Hen & _ & Hhash & Hid & _ & Hrel & ->)]]]];
    cbn [snd]; auto.
  - destruct (is_stock_related_sends rt cfg (dict_get weibo_data "text" (VStr [])) st)
      as [n ->]. auto.
  - destruct (fst (push_to_weixin _ _ _ _ _)) eqn:Hpush.
    + apply push_to_weixin_true in Hpush.
      pose proof (is_stock_related_true _ _ Hrel) as [_ Hkey].
      rewrite push_to_weixin_run, Hpush.
      destruct (is_stock_related_sends rt cfg
                  (dict_get weibo_data "text" (VStr [])) st) as [n ->].
      unfold add_pushed. cbn [snd pushed_weibo_ids sent_more].
      rewrite elem_of_union, elem_of_singleton. intros [-> | Hv]; auto 10.
    + rewrite push_to_weixin_run.
      destruct (is_stock_related_sends rt cfg
                  (dict_get weibo_data "text" (VStr [])) st) as [n ->].
      destruct (configured (webhook_url cfg)); auto.
Qed.

End OrchestratorPaths.

(** ** The orchestrator, further *)

Section OrchestratorFurther.

Context (rt : runtime) (cfg : config).


(** X6. For a post with text whose id can be hashed and is not recorded,
    the feature being on, [analyze_and_push] returns the post with the
    verdict and the analysis of the classifier under [stock_analysis], in
    place of what was there, whether the post is then pushed or not and
    whether the push succeeds or not. *)
Theorem analyze_and_push_attaches_verdict (weibo_data : post) st :
  enabled cfg = true →
  truthy (dict_get weibo_data "text" (VStr [])) = true →
  hashable (dict_get weibo_data "id" VNone) = true →
  dict_get weibo_data "id" VNone ∉ pushed_weibo_ids st →
  fst (analyze_and_push rt cfg weibo_data st)
  = (Returned,
     <["stock_analysis" :=
         VAnalysis
           (fst (fst (is_stock_related rt cfg
                        (dict_get weibo_data "text" (VStr [])) st)))
           (snd (fst (is_stock_related rt cfg
                        (dict_get weibo_data "text" (VStr [])) st)))]>
       weibo_data).
Proof.
  intros Hen Htext Hhash Hnew.
  pose proof (analyze_and_push_paths rt cfg weibo_data st) as H. cbv zeta in H.
  destruct H as [[Hoff _] | [(_ & _ & _ & Hh & _)
    | [(_ & _ & _ & _ & Hin & _) | [(_ & _ & _ & _ & _ & ->)
    | (_ & _ & _ & _ & _ & _ & ->)]]]]; try reflexivity.
  - destruct Hoff; congruence.
  - congruence.
  - contradiction.
Qed.

(** X7. All that a call of [analyze_and_push] sends is its classification
    request, at most [max_retries] times, and after these at most one
    request to the webhook; this last one only with an address configured,
    for a post that has an id and that the classifier found related. *)
Theorem analyze_and_push_requests (weibo_data : post) st :
  ∃ n w,
    Z.of_nat n ≤ Z.max 0 (max_retries cfg)
    ∧ sent (snd (analyze_and_push rt cfg weibo_data st))
      = sent st
          ++ replicate n
               (llm_request rt cfg (dict_get weibo_data "text" (VStr [])))
          ++ w
    ∧ (w = []
       ∨ (w = [webhook_request (default [] (webhook_url cfg))
                 (message rt weibo_data)]
          ∧ configured (webhook_url cfg) = true
          ∧ fst (fst (is_stock_related rt cfg
                        (dict_get weibo_data "text" (VStr [])) st)) = true
          ∧ truthy (dict_get weibo_data "id" VNone) = true)).
Proof.
  pose proof (analyze_and_push_paths rt cfg weibo_data st) as H. cbv zeta in H.
  destruct (is_stock_related_sends_bound rt cfg
              (dict_get weibo_data "text" (VStr [])) st) as (n & Hn & Hs & _).
  destruct H as [[_ ->] | [(_ & _ & _ & _ & ->) | [(_ & _ & _ & _ & _ & ->)
    | [(_ & _ & _ & _ & _ & ->) | (_ & _ & _ & Hid & _ & Hrel & ->)]]]];
    cbn [snd].
  1-3: exists 0%nat, []; split; [lia|]; split; [|left; reflexivity];
       simpl; rewrite app_nil_r; reflexivity.
  - exists n, []. split; [exact Hn|]. rewrite Hs, app_nil_r.
    split; [reflexivity | left; reflexivity].
  - rewrite push_to_weixin_run, message_ignores_stock_analysis, Hs.
    destruct (configured (webhook_url cfg)) eqn:Hcfg; cbn [fst snd].
    + exists n, [webhook_request (default [] (webhook_url cfg))
                   (message rt weibo_data)].
      split; [exact Hn|]. split.
      * destruct (acknowledged_b _); cbn [add_pushed sent sent_more];
          rewrite <- app_assoc; reflexivity.
      * right. auto.
    + exists n, []. split; [exact Hn|]. rewrite app_nil_r.
      split; [reflexivity | left; reflexivity].
Qed.

(** X8. A post that the classifier does not find related (be it that every
    attempt failed) or that has no id is not pushed: the set of pushed ids
    is unchanged, and only classification requests were sent. *)
Theorem analyze_and_push_unrelated_not_pushed (weibo_data : post) st :
  (fst (fst (is_stock_related rt cfg (dict_get weibo_data "text" (VStr [])) st))
   && truthy (dict_get weibo_data "id" VNone)) = false →
  pushed_weibo_ids (snd (analyze_and_push rt cfg weibo_data st))
  = pushed_weibo_ids st
  ∧ ∃ n,
      sent (snd (analyze_and_push rt cfg weibo_data st))
      = sent st
          ++ replicate n
               (llm_request rt cfg (dict_get weibo_data "text" (VStr []))).
Proof.
  intros Hno.
  pose proof (analyze_and_push_paths rt cfg weibo_data st) as H. cbv zeta in H.
  destruct (is_stock_related_sends rt cfg
              (dict_get weibo_data "text" (VStr [])) st) as [n Hs].
  destruct H as [[_ ->] | [(_ & _ & _ & _ & ->) | [(_ & _ & _ & _ & _ & ->)
    | [(_ & _ & _ & _ & _ & ->) | (_ & _ & _ & Hid & _ & Hrel & _)]]]];
    cbn [snd].
  1-3: split; [reflexivity|]; exists 0%nat; simpl; rewrite app_nil_r;
       reflexivity.
  - rewrite Hs. split; [reflexivity|]. exists n. reflexivity.
  - rewrite Hrel, Hid in Hno. discriminate.
Qed.

(** The path of a post whose id is recorded. *)
Lemma analyze_and_push_recorded (weibo_data : post) st :
  enabled cfg = true →
  truthy (dict_get weibo_data "text" (VStr [])) = true →
  truthy (dict_get weibo_data "id" VNone) = true →
  hashable (dict_get weibo_data "id" VNone) = true →
  dict_get weibo_data "id" VNone ∈ pushed_weibo_ids st →
  is_Some (weibo_data !! "stock_analysis") →
  analyze_and_push rt cfg weibo_data st = ((Returned, weibo_data), st).
Proof.
  intros Hen Htext Hid Hhash Hin [v Hv].
  unfold analyze_and_push. rewrite Hen, Htext, Hid, Hhash. cbn [negb andb].
  unfold bind, get_pushed. rewrite (bool_decide_eq_true_2 _ Hin), Hv.
  reflexivity.
Qed.

(** X9. Once the id of a post is recorded, analysing the post that was
    returned is a no-op: the same post comes back, no request is sent and
    the set is unchanged. *)
Theorem analyze_and_push_again_is_noop (weibo_data : post) st :
  reachable rt cfg st →
  dict_get weibo_data "id" VNone
    ∈ pushed_weibo_ids (snd (analyze_and_push rt cfg weibo_data st)) →
  analyze_and_push rt cfg (snd (fst (analyze_and_push rt cfg weibo_data st)))
    (snd (analyze_and_push rt cfg weibo_data st))
  = ((Returned, snd (fst (analyze_and_push rt cfg weibo_data st))),
     snd (analyze_and_push rt cfg weibo_data st)).
Proof.
  intros Hreach Hin.
  assert (Hok : truthy (dict_get weibo_data "id" VNone) = true
                ∧ hashable (dict_get weibo_data "id" VNone) = true).
  { apply (reachable_pushed_truthy rt cfg _ (reach_analyze rt cfg st weibo_data Hreach)).
    exact Hin. }
  destruct Hok as [Hid Hhash].
  pose proof (analyze_and_push_paths rt cfg weibo_data st) as H. cbv zeta in H.
  destruct H as [[_ Hrun] | [(_ & _ & _ & Hh & _)
    | [(Hen & Htext & _ & _ & Hold & Hrun) | [(_ & _ & _ & Hnew & Hno & Hrun)
    | (Hen & Htext & _ & _ & _ & _ & Hrun)]]]].
  - rewrite Hrun. cbn [fst snd]. exact Hrun.
  - congruence.
  - rewrite Hrun. cbn [fst snd].
    destruct (weibo_data !! "stock_analysis") as [v|] eqn:Hv.
    + apply analyze_and_push_recorded; try assumption. rewrite Hv. eauto.
    + apply analyze_and_push_recorded;
        rewrite ?dict_get_insert_ne by discriminate; try assumption.
      rewrite lookup_insert_eq. eauto.
  - rewrite Hrun in Hin. cbn [snd] in Hin.
    destruct (is_stock_related_sends rt cfg
                (dict_get weibo_data "text" (VStr [])) st) as [n Hs].
    rewrite Hs in Hin. specialize (Hnew Hid). contradiction.
  - rewrite Hrun in Hin |- *. cbn [fst snd] in Hin |- *.
    apply analyze_and_push_recorded;
      rewrite ?dict_get_insert_ne by discriminate; try assumption.
    rewrite lookup_insert_eq. eauto.
Qed.

(** X10. No state that an analyzer can reach records [None], [0], the
    empty string or a dict as a pushed id. *)
Theorem pushed_ids_never_falsy st :
  reachable rt cfg st →
  (VNone ∉ pushed_weibo_ids st)
  ∧ (VInt 0 ∉ pushed_weibo_ids st)
  ∧ (VStr [] ∉ pushed_weibo_ids st)
  ∧ ∀ b a, VAnalysis b a ∉ pushed_weibo_ids st.
Proof.
  intros Hreach.
  pose proof (reachable_pushed_truthy rt cfg st Hreach) as H.
  repeat split; try intros b a; intros Hin; apply H in Hin as [Ht Hh];
    discriminate.
Qed.

(** X11. As long as the feature is off, or no key or no webhook address is
    configured, the set of pushed ids stays empty. *)
Theorem pushed_ids_empty_unless_configured st :
  reachable rt cfg st →
  enabled cfg = false
  ∨ configured (api_key cfg) = false
  ∨ configured (webhook_url cfg) = false →
  pushed_weibo_ids st = ∅.
Proof.
  intros Hreach Hcfg. apply elem_of_equiv_empty_L.
  induction Hreach as [s0 | st text _ IH | st content data _ IH | st data _ IH];
    intros v Hv.
  - simpl in Hv. apply not_elem_of_empty in Hv. exact Hv.
  - destruct (is_stock_related_sends rt cfg text st) as [n Hn].
    rewrite Hn in Hv. exact (IH v Hv).
  - rewrite push_to_weixin_run in Hv.
    destruct (configured (webhook_url cfg)); exact (IH v Hv).
  - apply analyze_and_push_records in Hv
      as [Hv | (_ & _ & _ & Hen & Hkey & Hhook & _)]; [exact (IH v Hv)|].
    destruct Hcfg as [H | [H | H]]; congruence.
Qed.

(** X12. No call removes an id from the set of pushed ids, and no call
    forgets a request that was sent. *)
Theorem calls_only_add st st' :
  calls rt cfg st st' →
  pushed_weibo_ids st ⊆ pushed_weibo_ids st'
  ∧ ∃ more, sent st' = sent st ++ more.
Proof.
  induction 1 as [st | st st' text _ [IHp [m IHs]]
    | st st' content data _ [IHp [m IHs]] | st st' data _ [IHp [m IHs]]].
  - split; [reflexivity|]. exists []. rewrite app_nil_r. reflexivity.
  - destruct (is_stock_related_sends rt cfg text st') as [n ->].
    split; [exact IHp|]. cbn [sent sent_more]. rewrite IHs, <- app_assoc. eauto.
  - rewrite push_to_weixin_run.
    destruct (configured (webhook_url cfg)); cbn [snd sent sent_more];
      (split; [exact IHp|]); rewrite IHs, <- ?app_assoc; eauto.
  - pose proof (analyze_and_push_paths rt cfg data st') as H. cbv zeta in H.
    destruct (is_stock_related_sends rt cfg (dict_get data "text" (VStr [])) st')
      as [k Hk].
    destruct H as [[_ ->] | [(_ & _ & _ & _ & ->) | [(_ & _ & _ & _ & _ & ->)
      | [(_ & _ & _ & _ & _ & ->) | (_ & _ & _ & _ & _ & _ & ->)]]]];
      cbn [snd].
    1-3: split; [exact IHp | eauto].
    + rewrite Hk. split; [exact IHp|].
      cbn [sent sent_more]. rewrite IHs, <- app_assoc. eauto.
    + rewrite push_to_weixin_run, Hk.
      destruct (configured (webhook_url cfg)); cbn [fst snd].
      * destruct (acknowledged_b _); unfold add_pushed;
          cbn [pushed_weibo_ids sent sent_more];
          (split; [|rewrite IHs, <- !app_assoc; eauto]); [|exact IHp].
        intros v Hv. apply elem_of_union. right. apply IHp. exact Hv.
      * split; [exact IHp|].
        cbn [sent sent_more]. rewrite IHs, <- app_assoc. eauto.
Qed.

End OrchestratorFurther.

(** ** An analyzer that is not configured *)

(** X13. An analyzer built from a configuration with no [stock_config]
    section, with no [enabled] key in it, or with [enabled] false, does
    nothing: [is_stock_related] answers [(False, "")] and
    [analyze_and_push] returns the post as given, and neither sends a
    request. *)
Theorem analyzer_off_by_default rt section text (weibo_data : post) st :
  default false (section ≫= cfg_enabled) = false →
  is_stock_related rt (init_config section) text st = ((false, []), st)
  ∧ analyze_and_push rt (init_config section) weibo_data st
    = ((Returned, weibo_data), st).
Proof.
  intros Hoff.
  assert (Hen : enabled (init_config section) = false).
  { destruct section as [sc|]; [exact Hoff | reflexivity]. }
  unfold is_stock_related, analyze_and_push. rewrite Hen. split; reflexivity.
Qed.

(** ** Timestamps *)

Lemma dir_Y_needs_digit c r :
  PyDatetime.is_digit c = false → PyDatetime.dir_Y (c :: r) = [].
Proof.
  intros Hc.
  cbv [PyDatetime.dir_Y PyDatetime.pbind PyDatetime.any_digit
       PyDatetime.digit_if].
  rewrite Hc. reflexivity.
Qed.

Lemma fromisoformat_needs_digit c s :
  PyDatetime.is_digit c = false → PyDatetime.fromisoformat (c :: s) = None.
Proof.
  intros Hc. unfold PyDatetime.fromisoformat.
  change (take 10 (c :: s)) with (c :: take 9 s).
  unfold PyDatetime.first_full, PyDatetime.pbind at 1.
  rewrite dir_Y_needs_digit by exact Hc. reflexivity.
Qed.

(** X14. A timestamp that holds a [T] and does not begin with a digit is
    kept as it is: it is handed to [fromisoformat], which refuses it, and
    never reaches the branch for the format
    [Thu Dec 18 08:33:17 +0800 2025].  So it is with every timestamp of that
    format on a Tuesday or a Thursday. *)
Theorem timestamp_with_T_kept_raw rt c s :
  PyDatetime.is_digit c = false →
  py_in (cp "T") (c :: s) = true →
  beijing_time_str rt (VStr (c :: s)) = VStr (c :: s).
Proof.
  intros Hc HT. unfold beijing_time_str. cbn [truthy]. rewrite HT.
  assert (Hiso : PyDatetime.fromisoformat
                   (replace_char 90 (cp "+00:00") (c :: s)) = None).
  { unfold replace_char. cbn [flat_map].
    destruct (N.eqb_spec c 90) as [->|_].
    - apply (fromisoformat_needs_digit 43). reflexivity.
    - apply fromisoformat_needs_digit. exact Hc. }
  rewrite Hiso. reflexivity.
Qed.

Lemma strftime_not_empty dt : PyDatetime.strftime dt ≠ [].
Proof.
  unfold PyDatetime.strftime. intros H.
  apply app_eq_nil in H as [_ H]. discriminate.
Qed.

(** X15. The time line is there exactly when the post has a timestamp that
    is not empty (or zero): whether it can be read or not, a timestamp
    never makes the line disappear. *)
Theorem beijing_time_str_truthy rt created_at :
  truthy (beijing_time_str rt created_at) = truthy created_at.
Proof.
  unfold beijing_time_str.
  destruct (truthy created_at) eqn:Ht; [|reflexivity].
  destruct created_at as [|z|s|b a]; try exact Ht.
  destruct (_ ≫= PyDatetime.astimezone_shanghai rt) as [dt|]; [|exact Ht].
  cbn [truthy]. pose proof (strftime_not_empty dt).
  destruct (PyDatetime.strftime dt); [contradiction | reflexivity].
Qed.

(** ** Further sample runs *)

Lemma is_stock_related_true_only_on_reply_witness :
  enabled sample_config = true ∧ configured (api_key sample_config) = true
  ∧ ∃ m result reply,
      Z.of_nat m < max_retries sample_config
      ∧ snd (is_stock_related (runtime_up sample_analysis) sample_config
               (VStr (cp "贵州茅台今日放量上涨")) (init_state []))
        = sent_more (init_state [])
            (replicate (S m)
               (llm_request (runtime_up sample_analysis) sample_config
                  (VStr (cp "贵州茅台今日放量上涨"))))
      ∧ respond (runtime_up sample_analysis)
          (sent (init_state [])
           ++ replicate m
                (llm_request (runtime_up sample_analysis) sample_config
                   (VStr (cp "贵州茅台今日放量上涨"))))
          (llm_request (runtime_up sample_analysis) sample_config
             (VStr (cp "贵州茅台今日放量上涨")))
        = Response 200 (Some result)
      ∧ reply_content result = Some reply
      ∧ snd (fst (is_stock_related (runtime_up sample_analysis) sample_config
                    (VStr (cp "贵州茅台今日放量上涨")) (init_state [])))
        = strip reply
      ∧ ¬ substring not_related_marker (strip reply).
Proof.
  apply is_stock_related_true_only_on_reply. vm_compute. reflexivity.
Defined.

Lemma analyze_and_push_attaches_verdict_witness :
  fst (analyze_and_push (runtime_refusing sample_analysis) sample_config
         sample_post (init_state []))
  = (Returned,
     <["stock_analysis" :=
         VAnalysis
           (fst (fst (is_stock_related (runtime_refusing sample_analysis)
                        sample_config
                        (dict_get sample_post "text" (VStr []))
                        (init_state []))))
           (snd (fst (is_stock_related (runtime_refusing sample_analysis)
                        sample_config
                        (dict_get sample_post "text" (VStr []))
                        (init_state []))))]>
       sample_post).
Proof.
  apply analyze_and_push_attaches_verdict.
  - reflexivity.
  - reflexivity.
  - reflexivity.
  - simpl. apply not_elem_of_empty.
Defined.

Lemma analyze_and_push_unrelated_not_pushed_witness :
  pushed_weibo_ids
    (snd (analyze_and_push runtime_down sample_config sample_post
            (init_state [])))
  = pushed_weibo_ids (init_state [])
  ∧ ∃ n,
      sent (snd (analyze_and_push runtime_down sample_config sample_post
                   (init_state [])))
      = sent (init_state [])
          ++ replicate n
               (llm_request runtime_down sample_config
                  (dict_get sample_post "text" (VStr []))).
Proof.
  apply analyze_and_push_unrelated_not_pushed. vm_compute. reflexivity.
Defined.

Lemma analyze_and_push_again_is_noop_witness :
  analyze_and_push (runtime_up sample_analysis) sample_config
    (snd (fst (analyze_and_push (runtime_up sample_analysis) sample_config
                 sample_post (init_state []))))
    (snd (analyze_and_push (runtime_up sample_analysis) sample_config
            sample_post (init_state [])))
  = ((Returned,
      snd (fst (analyze_and_push (runtime_up sample_analysis) sample_config
                  sample_post (init_state [])))),
     snd (analyze_and_push (runtime_up sample_analysis) sample_config
            sample_post (init_state []))).
Proof.
  apply analyze_and_push_again_is_noop.
  - apply reach_init.
  - apply (bool_decide_unpack _). vm_compute. exact I.
Defined.

Lemma pushed_ids_never_falsy_witness :
  (VNone ∉ pushed_weibo_ids state_after_push)
  ∧ (VInt 0 ∉ pushed_weibo_ids state_after_push)
  ∧ (VStr [] ∉ pushed_weibo_ids state_after_push)
  ∧ ∀ b a, VAnalysis b a ∉ pushed_weibo_ids state_after_push.
Proof.
  apply (pushed_ids_never_falsy (runtime_up sample_analysis) sample_config).
  unfold state_after_push. apply reach_analyze, reach_init.
Defined.

Lemma pushed_ids_empty_unless_configured_witness :
  pushed_weibo_ids
    (snd (analyze_and_push (runtime_up sample_analysis) config_without_webhook
            sample_post (init_state [])))
  = ∅.
Proof.
  apply (pushed_ids_empty_unless_configured (runtime_up sample_analysis)
           config_without_webhook).
  - apply reach_analyze, reach_init.
  - right. right. reflexivity.
Defined.

Lemma calls_only_add_witness :
  pushed_weibo_ids (init_state []) ⊆ pushed_weibo_ids state_after_push
  ∧ ∃ more, sent state_after_push = sent (init_state []) ++ more.
Proof.
  apply (calls_only_add (runtime_up sample_analysis) sample_config).
  unfold state_after_push. apply calls_analyze, calls_none.
Defined.

Lemma analyzer_off_by_default_witness :
  is_stock_related runtime_down (init_config None)
    (VStr (cp "贵州茅台今日放量上涨")) (init_state [])
  = ((false, []), init_state [])
  ∧ analyze_and_push runtime_down (init_config None) sample_post (init_state [])
    = ((Returned, sample_post), init_state []).
Proof.
  apply analyzer_off_by_default. reflexivity.
Defined.

Lemma timestamp_with_T_kept_raw_witness :
  beijing_time_str runtime_down (VStr tuesday_timestamp) = VStr tuesday_timestamp.
Proof.
  apply (timestamp_with_T_kept_raw runtime_down 84
           (cp "ue Dec 16 08:33:17 +0800 2025")).
  - reflexivity.
  - reflexivity.
Defined.
